(** * psycopg3: textual adapters ([psycopg3/types/text.py]) and the COPY
    stream controller, embedded shallowly.

  Python [str] values are sequences of code points, [bytes] values are
  sequences of octets, exceptions are an explicit error type and every
  fallible function returns a [result]. *)

From Stdlib Require Import List String Ascii Strings.Byte NArith ZArith Bool Lia.
From Stdlib Require Import DecimalString.
Import ListNotations.

Local Open Scope N_scope.

(** ** Python values, exceptions and codecs *)

Module Py.

(** A Python [str]: a sequence of code points (0 .. 0x10FFFF, lone
    surrogates included, as in CPython). *)
Definition str := list N.

(** A Python [bytes] object. *)
Definition bytes := list byte.

(** The exceptions the adapters can raise. *)
Inductive exn : Type :=
| DataError (msg : string)
| UnicodeEncodeError
| UnicodeDecodeError
| LookupError.

Inductive result (A : Type) : Type :=
| Ok (a : A)
| Raise (e : exn).
Arguments Ok {A} a.
Arguments Raise {A} e.

Definition bind {A B} (m : result A) (f : A -> result B) : result B :=
  match m with
  | Ok a => f a
  | Raise e => Raise e
  end.

Definition fmap {A B} (f : A -> B) (m : result A) : result B :=
  bind m (fun a => Ok (f a)).

(** Values of type [Union[bytes, str]]. *)
Inductive value : Type :=
| VStr (s : str)
| VBytes (b : bytes).

(** The octet with a given numeric value (reduced modulo 256). *)
Definition octet (n : N) : byte :=
  match Byte.of_N (n mod 256) with
  | Some b => b
  | None => x00
  end.

(** The codecs of the standard library that the model covers. *)
Inductive codec : Type := Utf8 | Latin1 | Ascii.

(** [codecs.lookup], for the three charsets this development covers and
    the spellings of their names it accepts; any other name is answered
    as a name unknown to Python is, with [LookupError].  Python knows
    more charsets and more spellings: the properties below that depend on
    what a codec computes are stated for an encoding this function
    resolves. *)
Definition lookup (name : string) : option codec :=
  if (String.eqb name "utf-8" || String.eqb name "utf8")%bool then Some Utf8
  else if (String.eqb name "iso8859-1" || String.eqb name "latin1"
           || String.eqb name "latin-1")%bool then Some Latin1
  else if String.eqb name "ascii" then Some Ascii
  else None.

(** *** UTF-8, strict error handler *)

Definition utf8_encode_cp (c : N) : result bytes :=
  if c <? 0x80 then Ok [octet c]
  else if c <? 0x800 then
    Ok [octet (0xC0 + c / 64); octet (0x80 + c mod 64)]
  else if c <? 0x10000 then
    if ((0xD800 <=? c) && (c <=? 0xDFFF))%bool then Raise UnicodeEncodeError
    else Ok [octet (0xE0 + c / 4096); octet (0x80 + (c / 64) mod 64);
             octet (0x80 + c mod 64)]
  else if c <? 0x110000 then
    Ok [octet (0xF0 + c / 262144); octet (0x80 + (c / 4096) mod 64);
        octet (0x80 + (c / 64) mod 64); octet (0x80 + c mod 64)]
  else Raise UnicodeEncodeError.

Fixpoint utf8_encode (s : str) : result bytes :=
  match s with
  | [] => Ok []
  | c :: s' =>
      bind (utf8_encode_cp c) (fun b =>
      bind (utf8_encode s') (fun bs => Ok (b ++ bs)))
  end.

(** A continuation octet is one of 0x80 .. 0xBF. *)
Definition is_cont (b : byte) : bool :=
  (0x80 <=? Byte.to_N b) && (Byte.to_N b <? 0xC0).

Definition cont_bits (b : byte) : N := Byte.to_N b - 0x80.

Fixpoint utf8_decode (data : bytes) : result str :=
  match data with
  | [] => Ok []
  | b1 :: r1 =>
      let n1 := Byte.to_N b1 in
      if n1 <? 0x80 then fmap (cons n1) (utf8_decode r1)
      else if n1 <? 0xC0 then Raise UnicodeDecodeError
      else
        match r1 with
        | [] => Raise UnicodeDecodeError
        | b2 :: r2 =>
            if negb (is_cont b2) then Raise UnicodeDecodeError
            else if n1 <? 0xE0 then
              let c := (n1 - 0xC0) * 64 + cont_bits b2 in
              if c <? 0x80 then Raise UnicodeDecodeError
              else fmap (cons c) (utf8_decode r2)
            else
              match r2 with
              | [] => Raise UnicodeDecodeError
              | b3 :: r3 =>
                  if negb (is_cont b3) then Raise UnicodeDecodeError
                  else if n1 <? 0xF0 then
                    let c := (n1 - 0xE0) * 4096 + cont_bits b2 * 64
                             + cont_bits b3 in
                    if ((c <? 0x800)
                        || ((0xD800 <=? c) && (c <=? 0xDFFF)))%bool
                    then Raise UnicodeDecodeError
                    else fmap (cons c) (utf8_decode r3)
                  else
                    match r3 with
                    | [] => Raise UnicodeDecodeError
                    | b4 :: r4 =>
                        if negb (is_cont b4) then Raise UnicodeDecodeError
                        else if n1 <? 0xF8 then
                          let c := (n1 - 0xF0) * 262144
                                   + cont_bits b2 * 4096
                                   + cont_bits b3 * 64 + cont_bits b4 in
                          if ((c <? 0x10000) || (0x110000 <=? c))%bool
                          then Raise UnicodeDecodeError
                          else fmap (cons c) (utf8_decode r4)
                        else Raise UnicodeDecodeError
                    end
              end
        end
  end.

(** *** Single-octet charsets: ASCII (limit 128) and Latin-1 (limit 256) *)

Fixpoint single_encode (limit : N) (s : str) : result bytes :=
  match s with
  | [] => Ok []
  | c :: s' =>
      if c <? limit
      then bind (single_encode limit s') (fun bs => Ok (octet c :: bs))
      else Raise UnicodeEncodeError
  end.

Fixpoint single_decode (limit : N) (data : bytes) : result str :=
  match data with
  | [] => Ok []
  | b :: r =>
      if Byte.to_N b <? limit
      then bind (single_decode limit r) (fun s => Ok (Byte.to_N b :: s))
      else Raise UnicodeDecodeError
  end.

Definition codec_encode (c : codec) (s : str) : result bytes :=
  match c with
  | Utf8 => utf8_encode s
  | Latin1 => single_encode 256 s
  | Ascii => single_encode 128 s
  end.

Definition codec_decode (c : codec) (data : bytes) : result str :=
  match c with
  | Utf8 => utf8_decode data
  | Latin1 => single_decode 256 data
  | Ascii => single_decode 128 data
  end.

(** [obj.encode(encoding)] *)
Definition encode (encoding : string) (s : str) : result bytes :=
  match lookup encoding with
  | Some c => codec_encode c s
  | None => Raise LookupError
  end.

(** [data.decode(encoding)] *)
Definition decode (encoding : string) (data : bytes) : result str :=
  match lookup encoding with
  | Some c => codec_decode c data
  | None => Raise LookupError
  end.

(** The code points a codec can encode. *)
Definition encodable_cp (c : codec) (p : N) : bool :=
  match c with
  | Utf8 => (p <? 0x110000) && negb ((0xD800 <=? p) && (p <=? 0xDFFF))
  | Latin1 => p <? 256
  | Ascii => p <? 128
  end.

Definition encodable (c : codec) (s : str) : bool :=
  forallb (encodable_cp c) s.

(** The code points of a string literal (one per character, so only
    literals of code points below 256 are written this way). *)
Definition of_string (s : string) : str :=
  map N_of_ascii (list_ascii_of_string s).

End Py.

(** ** [psycopg3.pq] and [psycopg3.oids]: what the adapters use of them *)

Module Pq.

(** [pq.Format] *)
Inductive Format : Type := TEXT | BINARY.

Definition Format_eqb (f g : Format) : bool :=
  match f, g with
  | TEXT, TEXT | BINARY, BINARY => true
  | _, _ => false
  end.

(** Modelled from the spec: the transport handle of a connection
    ([pq.PGconn], not part of the sources at hand); the adapters only pass
    it on, and the escaping helper reads the server version from it. *)
Record PGconn : Type := { server_version : N }.

(** Modelled from the spec: the catalogue numbers of [psycopg3/oids.py],
    which is not part of the sources at hand.  [INVALID_OID] is the
    reserved unknown/untyped TypeIdentifier. *)
Definition INVALID_OID : N := 0.
Definition oid_bytea : N := 17.
Definition oid_name : N := 19.
Definition oid_text : N := 25.
Definition oid_bpchar : N := 1042.
Definition oid_varchar : N := 1043.

Definition backslash : byte := "\"%byte.

(** Modelled from the spec: the Escaping Helper ([pq.Escaping], not part
    of the sources at hand).  [escape_bytea] writes the server's blob
    literal: the hex convention (backslash, x, two hex digits per octet)
    when bound to a connection whose server knows it, the octal
    convention (backslash doubled, non-printable octets as backslash and
    three octal digits) otherwise.  [unescape_bytea] reads both and does
    not depend on the connection. *)
Record Escaping : Type := { esc_id : nat; esc_conn : option PGconn }.

Definition hex_digit (n : N) : byte :=
  if n <? 10 then Py.octet (48 + n) else Py.octet (87 + n).

Definition oct_digit (n : N) : byte := Py.octet (48 + n).

Definition hex_value (b : byte) : option N :=
  let n := Byte.to_N b in
  if ((48 <=? n) && (n <? 58))%bool then Some (n - 48)
  else if ((97 <=? n) && (n <? 103))%bool then Some (n - 87)
  else if ((65 <=? n) && (n <? 71))%bool then Some (n - 55)
  else None.

Definition oct_value (b : byte) : option N :=
  let n := Byte.to_N b in
  if ((48 <=? n) && (n <? 56))%bool then Some (n - 48) else None.

Definition escape_hex_body (data : Py.bytes) : Py.bytes :=
  flat_map (fun b => [hex_digit (Byte.to_N b / 16);
                      hex_digit (Byte.to_N b mod 16)]) data.

Definition escape_octal_octet (b : byte) : Py.bytes :=
  let n := Byte.to_N b in
  if n =? 92 then [backslash; backslash]
  else if ((n <? 32) || (126 <? n))%bool then
    [backslash; oct_digit (n / 64); oct_digit ((n / 8) mod 8);
     oct_digit (n mod 8)]
  else [b].

Definition uses_hex (e : Escaping) : bool :=
  match esc_conn e with
  | Some c => 90000 <=? server_version c
  | None => false
  end.

Definition escape_bytea (e : Escaping) (data : Py.bytes) : Py.bytes :=
  if uses_hex e then backslash :: "x"%byte :: escape_hex_body data
  else flat_map escape_octal_octet data.

(** Pairs of hex digits; an octet that is no hex digit is skipped. *)
Fixpoint unescape_hex_body (data : Py.bytes) : Py.bytes :=
  match data with
  | [] => []
  | h :: r =>
      match hex_value h with
      | None => unescape_hex_body r
      | Some hi =>
          match r with
          | [] => []
          | l :: r' =>
              match hex_value l with
              | None => unescape_hex_body r'
              | Some lo => Py.octet (hi * 16 + lo) :: unescape_hex_body r'
              end
          end
      end
  end.

Fixpoint unescape_octal (data : Py.bytes) : Py.bytes :=
  match data with
  | [] => []
  | b :: r =>
      if negb (Byte.to_N b =? 92) then b :: unescape_octal r
      else
        match r with
        | [] => []
        | d1 :: r1 =>
            if Byte.to_N d1 =? 92 then backslash :: unescape_octal r1
            else
              match oct_value d1, r1 with
              | Some v1, d2 :: d3 :: r3 =>
                  match oct_value d2, oct_value d3 with
                  | Some v2, Some v3 =>
                      if v1 <? 4
                      then Py.octet (v1 * 64 + v2 * 8 + v3)
                             :: unescape_octal r3
                      else d1 :: unescape_octal r1
                  | _, _ => d1 :: unescape_octal r1
                  end
              | _, _ => d1 :: unescape_octal r1
              end
        end
  end.

Definition unescape_bytea (e : Escaping) (data : Py.bytes) : Py.bytes :=
  match data with
  | b1 :: b2 :: r =>
      if ((Byte.to_N b1 =? 92) && (Byte.to_N b2 =? 120))%bool
      then unescape_hex_body r
      else unescape_octal data
  | _ => unescape_octal data
  end.

End Pq.

(** ** [psycopg3/types/text.py] *)

Module Text.

(** Modelled from the spec: the connection as the adapters see it (the
    connection class is not part of the sources at hand): the owner of
    the EncodingContext, read through [client_encoding], and of the
    transport handle [pgconn]. *)
Record Connection : Type :=
  { client_encoding : string; pgconn : Pq.PGconn }.

(** [AdaptContext], resolved by the adapter base class to the
    [connection] attribute: a connection or [None]. *)
Definition AdaptContext := option Connection.

Definition NUL : N := 0.

Definition nul_message : string :=
  "PostgreSQL text fields cannot contain NUL (0x00) bytes".

(** *** [_StringDumper] and its two subclasses *)

Record _StringDumper : Type := { sd_encoding : string }.

Definition _StringDumper_init (context : AdaptContext) : _StringDumper :=
  match context with
  | Some conn =>
      let enc := client_encoding conn in
      if negb (String.eqb enc "ascii") then {| sd_encoding := enc |}
      else {| sd_encoding := "utf-8" |}
  | None => {| sd_encoding := "utf-8" |}
  end.

Definition StringBinaryDumper_dump (self : _StringDumper) (obj : Py.str)
  : Py.result Py.bytes :=
  Py.encode (sd_encoding self) obj.

Definition StringDumper_dump (self : _StringDumper) (obj : Py.str)
  : Py.result Py.bytes :=
  if existsb (N.eqb NUL) obj
  then Py.Raise (Py.DataError nul_message)
  else Py.encode (sd_encoding self) obj.

(** *** [TextLoader] *)

Record TextLoader : Type := { tl_encoding : string }.

Definition TextLoader_init (context : AdaptContext) : TextLoader :=
  match context with
  | Some conn =>
      let enc := client_encoding conn in
      {| tl_encoding := if negb (String.eqb enc "ascii") then enc else "" |}
  | None => {| tl_encoding := "utf-8" |}
  end.

(** Truth value of a [str]: non-empty. *)
Definition truthy (s : string) : bool := negb (String.eqb s "").

Definition TextLoader_load (self : TextLoader) (data : Py.bytes)
  : Py.result Py.value :=
  if truthy (tl_encoding self)
  then Py.fmap Py.VStr (Py.decode (tl_encoding self) data)
  else Py.Ok (Py.VBytes data).

(** *** [UnknownLoader] *)

Record UnknownLoader : Type := { ul_encoding : string }.

Definition UnknownLoader_init (context : AdaptContext) : UnknownLoader :=
  match context with
  | Some conn => {| ul_encoding := client_encoding conn |}
  | None => {| ul_encoding := "utf-8" |}
  end.

Definition UnknownLoader_load (self : UnknownLoader) (data : Py.bytes)
  : Py.result Py.value :=
  Py.fmap Py.VStr (Py.decode (ul_encoding self) data).

(** *** [BytesDumper] and [BytesBinaryDumper] *)

Record BytesDumper : Type := { bd_esc : Pq.Escaping }.

(** [Escaping(...)] allocates a helper; [fresh] is the identity the new
    object gets. *)
Definition BytesDumper_init (fresh : nat) (context : AdaptContext)
  : BytesDumper :=
  {| bd_esc := {| Pq.esc_id := fresh;
                  Pq.esc_conn := match context with
                                 | Some conn => Some (pgconn conn)
                                 | None => None
                                 end |} |}.

Definition BytesDumper_dump (self : BytesDumper) (obj : Py.bytes)
  : Py.bytes :=
  Pq.escape_bytea (bd_esc self) obj.

Definition BytesBinaryDumper_dump (obj : Py.bytes) : Py.bytes := obj.

(** *** [ByteaLoader]: the helper lives in a class attribute *)

(** The part of the interpreter state the constructor touches: the
    class attribute [ByteaLoader._escaping] (absent until first set) and
    the number of [Escaping] objects allocated so far, which is also the
    identity of the next one. *)
Record ClassState : Type :=
  { cls_escaping : option Pq.Escaping; allocated : nat }.

Definition initial_state : ClassState :=
  {| cls_escaping := None; allocated := 0 |}.

Record ByteaLoader : Type := { bl_oid : N; bl_context : AdaptContext }.

Definition ByteaLoader_init (oid : N) (context : AdaptContext)
    (st : ClassState) : ByteaLoader * ClassState :=
  let self := {| bl_oid := oid; bl_context := context |} in
  match cls_escaping st with
  | Some _ => (self, st)
  | None =>
      (self,
       {| cls_escaping := Some {| Pq.esc_id := allocated st;
                                  Pq.esc_conn := None |};
          allocated := S (allocated st) |})
  end.

(** [self._escaping]: the instance has no attribute of that name of its
    own, so the lookup falls through to the class. *)
Definition ByteaLoader_escaping (self : ByteaLoader) (st : ClassState)
  : option Pq.Escaping :=
  cls_escaping st.

Definition ByteaLoader_load (self : ByteaLoader) (st : ClassState)
    (data : Py.bytes) : option Py.bytes :=
  match ByteaLoader_escaping self st with
  | Some e => Some (Pq.unescape_bytea e data)
  | None => None
  end.

(** Constructing loaders one after the other. *)
Fixpoint construct_all (args : list (N * AdaptContext)) (st : ClassState)
  : list ByteaLoader * ClassState :=
  match args with
  | [] => ([], st)
  | (oid, context) :: rest =>
      let '(self, st1) := ByteaLoader_init oid context st in
      let '(others, st2) := construct_all rest st1 in
      (self :: others, st2)
  end.

Definition ByteaBinaryLoader_load (data : Py.bytes) : Py.bytes := data.

(** *** The registrations made by the class decorators *)

Inductive LoaderClass : Type :=
| cls_TextLoader | cls_UnknownLoader | cls_ByteaLoader
| cls_ByteaBinaryLoader.

Definition LoaderKey : Type := N * Pq.Format.

Definition key_eqb (k1 k2 : LoaderKey) : bool :=
  (fst k1 =? fst k2) && Pq.Format_eqb (snd k1) (snd k2).

(** The decorators of a class run bottom-up, the classes top-down; the
    list is in execution order. *)
Definition registrations : list (LoaderKey * LoaderClass) :=
  [ ((Pq.INVALID_OID, Pq.TEXT), cls_TextLoader);
    ((Pq.oid_varchar, Pq.BINARY), cls_TextLoader);
    ((Pq.oid_varchar, Pq.TEXT), cls_TextLoader);
    ((Pq.oid_text, Pq.BINARY), cls_TextLoader);
    ((Pq.oid_text, Pq.TEXT), cls_TextLoader);
    ((Pq.oid_bpchar, Pq.BINARY), cls_UnknownLoader);
    ((Pq.oid_bpchar, Pq.TEXT), cls_UnknownLoader);
    ((Pq.oid_name, Pq.BINARY), cls_UnknownLoader);
    ((Pq.oid_name, Pq.TEXT), cls_UnknownLoader);
    ((Pq.oid_bytea, Pq.TEXT), cls_ByteaLoader);
    ((Pq.INVALID_OID, Pq.BINARY), cls_ByteaBinaryLoader);
    ((Pq.oid_bytea, Pq.BINARY), cls_ByteaBinaryLoader) ].

(** A registration replaces an earlier one for the same key. *)
Fixpoint registered (regs : list (LoaderKey * LoaderClass)) (k : LoaderKey)
  : option LoaderClass :=
  match regs with
  | [] => None
  | (k', cls) :: rest =>
      match registered rest k with
      | Some later => Some later
      | None => if key_eqb k' k then Some cls else None
      end
  end.

(** Modelled from the spec: the registry's resolution for decoding (the
    registry itself, [psycopg3/adapt.py], is not part of the sources at
    hand): the exact key, else the key of the reserved [INVALID_OID]. *)
Definition resolve (oid : N) (format : Pq.Format) : option LoaderClass :=
  match registered registrations (oid, format) with
  | Some cls => Some cls
  | None => registered registrations (Pq.INVALID_OID, format)
  end.

End Text.

(** ** The COPY stream controller *)

Module Copy.

Inductive Direction : Type := IN | OUT.

Inductive SessionState : Type := OPEN | FINALIZED.

Inductive TransactionStatus : Type := IDLE | INTRANS | INERROR.

Inductive ExecStatus : Type :=
| COMMAND_OK | TUPLES_OK | COPY_OUT | COPY_IN | FATAL_ERROR.

Inductive ErrorClass : Type :=
| UniqueViolation | SyntaxError | QueryCanceled | BadCopyFileFormat.

Record ErrorInfo : Type := { sqlstate : ErrorClass; message : string }.

Record CommandResult : Type :=
  { status : ExecStatus; rowsAffected : Z; errorInfo : option ErrorInfo }.

(** What a COPY block can raise. *)
Inductive exn : Type :=
| AdaptError (e : Py.exn)
| ServerError (info : ErrorInfo)
| ProgrammingError (msg : string)
| Exception (msg : string).

Inductive outcome (A : Type) : Type :=
| Return (a : A)
| Raised (e : exn).
Arguments Return {A} a.
Arguments Raised {A} e.

(** [str(exc)] *)
Definition exn_message (e : exn) : string :=
  match e with
  | AdaptError (Py.DataError msg) => msg
  | AdaptError Py.UnicodeEncodeError => "UnicodeEncodeError"
  | AdaptError Py.UnicodeDecodeError => "UnicodeDecodeError"
  | AdaptError Py.LookupError => "LookupError"
  | ServerError info => message info
  | ProgrammingError msg => msg
  | Exception msg => msg
  end.

(** [needle in hay] on text. *)
Fixpoint contains (needle hay : string) : bool :=
  if String.prefix needle hay then true
  else match hay with
       | EmptyString => false
       | String _ rest => contains needle rest
       end.

(** *** The transport collaborator *)

(** Modelled from the spec: a block delivered by [receive] holds at
    least one octet; the end of the data is a separate answer. *)
Record Chunk : Type := { first_octet : byte; more_octets : Py.bytes }.

Definition chunk_bytes (c : Chunk) : Py.bytes :=
  first_octet c :: more_octets c.

(** Modelled from the spec: the transport collaborator
    ([send], [receive], [sendCopyDone], [sendCopyFail], [getResult]),
    which is not part of the sources at hand, together with the server
    behind it: what the server answers to the COPY request, what it
    reports on completion, and whether it answers an abort with an
    error of its own. *)
Record Transport : Type :=
  { wire : Py.bytes;
    busy : nat;
    incoming : list Chunk;
    copy_done : bool;
    copy_fail : option string;
    reply : CommandResult;
    completion : CommandResult;
    abort_reveals : bool;
    transaction_status : TransactionStatus }.

Inductive SendResult : Type := SendOK | WouldBlock.

Definition send (t : Transport) (block : Py.bytes)
  : SendResult * Transport :=
  match busy t with
  | S k =>
      (WouldBlock,
       {| wire := wire t; busy := k; incoming := incoming t;
          copy_done := copy_done t; copy_fail := copy_fail t;
          reply := reply t; completion := completion t;
          abort_reveals := abort_reveals t;
          transaction_status := transaction_status t |})
  | O =>
      (SendOK,
       {| wire := wire t ++ block; busy := 0; incoming := incoming t;
          copy_done := copy_done t; copy_fail := copy_fail t;
          reply := reply t; completion := completion t;
          abort_reveals := abort_reveals t;
          transaction_status := transaction_status t |})
  end.

Definition receive (t : Transport) : option Chunk * Transport :=
  match incoming t with
  | [] => (None, t)
  | c :: rest =>
      (Some c,
       {| wire := wire t; busy := busy t; incoming := rest;
          copy_done := copy_done t; copy_fail := copy_fail t;
          reply := reply t; completion := completion t;
          abort_reveals := abort_reveals t;
          transaction_status := transaction_status t |})
  end.

Definition sendCopyDone (t : Transport) : Transport :=
  {| wire := wire t; busy := busy t; incoming := incoming t;
     copy_done := true; copy_fail := copy_fail t;
     reply := reply t; completion := completion t;
     abort_reveals := abort_reveals t;
     transaction_status := transaction_status t |}.

(** The server fails the transaction when the transfer is aborted. *)
Definition sendCopyFail (t : Transport) (msg : string) : Transport :=
  {| wire := wire t; busy := busy t; incoming := incoming t;
     copy_done := copy_done t; copy_fail := Some msg;
     reply := reply t; completion := completion t;
     abort_reveals := abort_reveals t;
     transaction_status := INERROR |}.

Definition with_status (t : Transport) (ts : TransactionStatus)
  : Transport :=
  {| wire := wire t; busy := busy t; incoming := incoming t;
     copy_done := copy_done t; copy_fail := copy_fail t;
     reply := reply t; completion := completion t;
     abort_reveals := abort_reveals t;
     transaction_status := ts |}.

(** The server's own error for an aborted transfer carries the message
    it was given. *)
Definition abort_error (msg : string) : CommandResult :=
  {| status := FATAL_ERROR; rowsAffected := -1;
     errorInfo := Some {| sqlstate := QueryCanceled;
                          message := "COPY from stdin failed: " ++ msg |} |}.

Definition abort_quiet : CommandResult :=
  {| status := COMMAND_OK; rowsAffected := -1; errorInfo := None |}.

(** A result that reports an error leaves the transaction failed. *)
Definition deliver (r : CommandResult) (t : Transport)
  : CommandResult * Transport :=
  match errorInfo r with
  | Some _ => (r, with_status t INERROR)
  | None => (r, t)
  end.

Definition getResult (t : Transport) : CommandResult * Transport :=
  match copy_fail t with
  | Some msg =>
      deliver (if abort_reveals t then abort_error msg else abort_quiet) t
  | None => deliver (completion t) t
  end.

(** *** Rows and their framing *)

(** The values a row can hold. *)
Inductive Value : Type :=
| Int4 (n : Z)
| Str (s : Py.str)
| Bytes (b : Py.bytes)
| PyNone.

(** Big-endian two's complement on [width] octets. *)
Fixpoint big_endian (width : nat) (n : Z) : Py.bytes :=
  match width with
  | O => []
  | S k => big_endian k (n / 256) ++ [Py.octet (Z.to_N (n mod 256))]
  end.

(** Modelled from the spec: the codec of 4-byte integers
    ([psycopg3/types/numeric.py], not part of the sources at hand):
    decimal digits in TEXT format, four big-endian octets in BINARY. *)
Definition Int4_dump (format : Pq.Format) (n : Z) : Py.bytes :=
  match format with
  | Pq.TEXT => list_byte_of_string (NilZero.string_of_int (Z.to_int n))
  | Pq.BINARY => big_endian 4 n
  end.

(** One field through the codec resolved for its type and the session's
    format; [None] stands for SQL NULL. *)
Definition dump_value (format : Pq.Format) (context : Text.AdaptContext)
    (v : Value) : Py.result (option Py.bytes) :=
  match v with
  | PyNone => Py.Ok None
  | Int4 n => Py.Ok (Some (Int4_dump format n))
  | Str s =>
      Py.fmap Some
        match format with
        | Pq.TEXT => Text.StringDumper_dump (Text._StringDumper_init context) s
        | Pq.BINARY =>
            Text.StringBinaryDumper_dump (Text._StringDumper_init context) s
        end
  | Bytes b =>
      Py.Ok (Some
        match format with
        | Pq.TEXT => Text.BytesDumper_dump (Text.BytesDumper_init 0 context) b
        | Pq.BINARY => Text.BytesBinaryDumper_dump b
        end)
  end.

Fixpoint dump_row (format : Pq.Format) (context : Text.AdaptContext)
    (row : list Value) : Py.result (list (option Py.bytes)) :=
  match row with
  | [] => Py.Ok []
  | v :: rest =>
      Py.bind (dump_value format context v) (fun f =>
      Py.bind (dump_row format context rest) (fun fs => Py.Ok (f :: fs)))
  end.

Definition TAB : byte := x09.
Definition LF : byte := x0a.

(** Modelled from the spec: the in-band escaping of a TEXT field; the
    control characters and the backslash are written as a backslash and a
    letter. *)
Definition escape_octet (b : byte) : Py.bytes :=
  match b with
  | x08 => [Pq.backslash; "b"%byte]
  | x09 => [Pq.backslash; "t"%byte]
  | x0a => [Pq.backslash; "n"%byte]
  | x0b => [Pq.backslash; "v"%byte]
  | x0c => [Pq.backslash; "f"%byte]
  | x0d => [Pq.backslash; "r"%byte]
  | x5c => [Pq.backslash; Pq.backslash]
  | _ => [b]
  end.

Definition text_field (f : option Py.bytes) : Py.bytes :=
  match f with
  | None => [Pq.backslash; "N"%byte]
  | Some b => flat_map escape_octet b
  end.

Fixpoint join_tab (fields : list Py.bytes) : Py.bytes :=
  match fields with
  | [] => []
  | [f] => f
  | f :: rest => f ++ TAB :: join_tab rest
  end.

(** Modelled from the spec: a TEXT row; the fields separated by a tab, one
    line break at the end, NULL written as backslash-N. *)
Definition text_row (fields : list (option Py.bytes)) : Py.bytes :=
  join_tab (map text_field fields) ++ [LF].

Definition binary_field (f : option Py.bytes) : Py.bytes :=
  match f with
  | None => big_endian 4 (-1)
  | Some b => big_endian 4 (Z.of_nat (List.length b)) ++ b
  end.

(** Modelled from the spec: a BINARY row frame; the 2-octet field count,
    then each field behind its 4-octet big-endian length, or the length
    -1 alone for NULL. *)
Definition binary_row (fields : list (option Py.bytes)) : Py.bytes :=
  big_endian 2 (Z.of_nat (List.length fields))
  ++ flat_map binary_field fields.

(** Modelled from the spec: the file header of COPY BINARY, that is the
    11-octet signature, the flags field and the length of the (empty)
    header extension. *)
Definition binary_header : Py.bytes :=
  list_byte_of_string "PGCOPY" ++ [x0a; xff; x0d; x0a; x00]
  ++ big_endian 4 0 ++ big_endian 4 0.

(** Modelled from the spec: the trailer of COPY BINARY, a field count of
    -1. *)
Definition binary_trailer : Py.bytes := big_endian 2 (-1).

(** *** The session *)

Definition NOT_APPLICABLE : Z := -1.

(** Modelled from the spec: the cursor as the controller sees it; the
    caller-visible row count, the transport and the adaptation context of
    its connection. *)
Record Cursor : Type :=
  { rowcount : Z; transport : Transport; context : Text.AdaptContext }.

(** Modelled from the spec: the Copy Stream Controller
    ([psycopg3/copy.py] and the cursor's [copy] entry point, not part of
    the sources at hand; only their tests are). *)
Record Session : Type :=
  { direction : Direction;
    format : Pq.Format;
    state : SessionState;
    first_row : bool;
    cursor : Cursor }.

Definition with_transport (s : Session) (t : Transport) : Session :=
  {| direction := direction s; format := format s; state := state s;
     first_row := first_row s;
     cursor := {| rowcount := rowcount (cursor s); transport := t;
                  context := context (cursor s) |} |}.

Definition finalized (s : Session) (t : Transport) (count : Z) : Session :=
  {| direction := direction s; format := format s; state := FINALIZED;
     first_row := first_row s;
     cursor := {| rowcount := count; transport := t;
                  context := context (cursor s) |} |}.

Definition row_written (s : Session) : Session :=
  {| direction := direction s; format := format s; state := state s;
     first_row := false; cursor := cursor s |}.

(** Modelled from the spec: send attempts are repeated until the
    transport takes the block. *)
Fixpoint send_all (attempts : nat) (t : Transport) (block : Py.bytes)
  : Transport :=
  match send t block with
  | (SendOK, t') => t'
  | (WouldBlock, t') =>
      match attempts with
      | O => t'
      | S k => send_all k t' block
      end
  end.

Definition not_copy_in : exn :=
  ProgrammingError "write is valid only while a COPY-IN session is open".

Definition not_copy_out : exn :=
  ProgrammingError "read is valid only for a COPY-OUT session".

(** Modelled from the spec: [write(block)], valid only while a COPY-IN
    session is open; the octets go to the transport as they are. *)
Definition write (s : Session) (block : Py.bytes) : Session * option exn :=
  match direction s, state s with
  | IN, OPEN =>
      let t := transport (cursor s) in
      (with_transport s (send_all (busy t) t block), None)
  | _, _ => (s, Some not_copy_in)
  end.

(** Modelled from the spec: [write_row(values)]; each value goes through
    the codec resolved for it, the row is framed for the session's format
    (the file header before the first BINARY row) and written.  A codec
    error is raised before anything is sent. *)
Definition write_row (s : Session) (row : list Value)
  : Session * option exn :=
  match direction s, state s with
  | IN, OPEN =>
      match dump_row (format s) (context (cursor s)) row with
      | Py.Raise e => (s, Some (AdaptError e))
      | Py.Ok fields =>
          match format s with
          | Pq.TEXT => write s (text_row fields)
          | Pq.BINARY =>
              let frame := binary_row fields in
              write (row_written s)
                (if first_row s then binary_header ++ frame else frame)
          end
      end
  | _, _ => (s, Some not_copy_in)
  end.

(** Modelled from the spec: the server's final result, taken into the
    session; the row count on success, the server's error otherwise. *)
Definition complete (s : Session) (t : Transport) : Session * option exn :=
  let '(r, t') := getResult t in
  match errorInfo r with
  | Some info => (finalized s t' (rowcount (cursor s)), Some (ServerError info))
  | None => (finalized s t' (rowsAffected r), None)
  end.

(** Modelled from the spec: [read()], valid only for COPY-OUT; the next
    block as the transport delivers it, or the empty result at the end of
    the data and ever after. *)
Definition read (s : Session) : Session * outcome Py.bytes :=
  match direction s, state s with
  | OUT, OPEN =>
      match receive (transport (cursor s)) with
      | (Some c, t') => (with_transport s t', Return (chunk_bytes c))
      | (None, t') =>
          match complete s t' with
          | (s', None) => (s', Return [])
          | (s', Some e) => (s', Raised e)
          end
      end
  | OUT, FINALIZED => (s, Return [])
  | IN, _ => (s, Raised not_copy_out)
  end.

(** Modelled from the spec: [for block in copy], that is [read] until it
    returns nothing. *)
Fixpoint iterate (fuel : nat) (s : Session)
  : Session * outcome (list Py.bytes) :=
  match read s with
  | (s', Raised e) => (s', Raised e)
  | (s', Return []) => (s', Return [])
  | (s', Return block) =>
      match fuel with
      | O => (s', Return [block])
      | S k =>
          match iterate k s' with
          | (s'', Return blocks) => (s'', Return (block :: blocks))
          | (s'', Raised e) => (s'', Raised e)
          end
      end
  end.

(** [list(copy)]: no more blocks can arrive than the transport holds. *)
Definition to_list (s : Session) : Session * outcome (list Py.bytes) :=
  iterate (List.length (incoming (transport (cursor s)))) s.

(** The results of [n] successive calls of [read]. *)
Fixpoint reads (n : nat) (s : Session)
  : Session * list (outcome Py.bytes) :=
  match n with
  | O => (s, [])
  | S k =>
      let '(s1, r) := read s in
      let '(s2, rs) := reads k s1 in
      (s2, r :: rs)
  end.

(** What a caller who calls [read] again and again has gathered when the
    first empty result (or an error) comes. *)
Fixpoint until_empty (results : list (outcome Py.bytes))
  : outcome (list Py.bytes) :=
  match results with
  | [] => Return []
  | Raised e :: _ => Raised e
  | Return [] :: _ => Return []
  | Return block :: rest =>
      match until_empty rest with
      | Return blocks => Return (block :: blocks)
      | Raised e => Raised e
      end
  end.

(** What a write that is accepted changes in a session: the octets on
    the wire, and nothing of what the controller or the server decide
    on. *)
Definition wrote (s s' : Session) (block : Py.bytes) : Prop :=
  direction s' = direction s
  /\ state s' = state s
  /\ format s' = format s
  /\ context (cursor s') = context (cursor s)
  /\ rowcount (cursor s') = rowcount (cursor s)
  /\ copy_fail (transport (cursor s')) = copy_fail (transport (cursor s))
  /\ completion (transport (cursor s')) = completion (transport (cursor s))
  /\ wire (transport (cursor s')) = wire (transport (cursor s)) ++ block.

(** Modelled from the spec: finalization on leaving the block without an
    error.  The trailer of COPY BINARY is sent when rows were framed by
    [write_row]; a caller who sends whole buffers with [write] sends its
    own. *)
Definition finish (s : Session) : Session * option exn :=
  match state s with
  | FINALIZED => (s, None)
  | OPEN =>
      let t := transport (cursor s) in
      match direction s with
      | IN =>
          let t1 :=
            match format s, first_row s with
            | Pq.BINARY, false => send_all (busy t) t binary_trailer
            | _, _ => t
            end in
          complete s (sendCopyDone t1)
      | OUT => complete s t
      end
  end.

(** Modelled from the spec: finalization on an error raised inside the
    block. *)
Definition finish_error (s : Session) (e : exn) : Session * option exn :=
  match state s with
  | FINALIZED => (s, Some e)
  | OPEN =>
      let t := transport (cursor s) in
      let t1 :=
        match direction s with
        | IN => sendCopyFail t (exn_message e)
        | OUT => t
        end in
      let '(r, t2) := getResult t1 in
      (finalized s t2 (rowcount (cursor s)),
       match errorInfo r with
       | Some info => Some (ServerError info)
       | None => Some e
       end)
  end.

Definition not_a_copy : exn :=
  ProgrammingError "the statement is not a COPY statement".

(** Modelled from the spec: [cursor.copy(statement)]; the row count is
    reset, the statement is sent, and the session is open only if the
    server answers with a COPY status. *)
Definition Cursor_copy (fmt : Pq.Format) (c : Cursor)
  : Cursor * outcome Session :=
  let t := transport c in
  let fresh :=
    {| rowcount := NOT_APPLICABLE; transport := t; context := context c |} in
  let opened (d : Direction) :=
    {| direction := d; format := fmt; state := OPEN; first_row := true;
       cursor := fresh |} in
  match status (reply t) with
  | COPY_IN => (fresh, Return (opened IN))
  | COPY_OUT => (fresh, Return (opened OUT))
  | FATAL_ERROR =>
      ({| rowcount := NOT_APPLICABLE; transport := with_status t INERROR;
          context := context c |},
       Raised match errorInfo (reply t) with
              | Some info => ServerError info
              | None => not_a_copy
              end)
  | COMMAND_OK | TUPLES_OK => (fresh, Raised not_a_copy)
  end.

(** Modelled from the spec: [with cursor.copy(statement) as copy:
    body(copy)], finalizing on every way out of the block. *)
Definition with_copy (fmt : Pq.Format) (c : Cursor)
    (body : Session -> Session * option exn) : Cursor * option exn :=
  match Cursor_copy fmt c with
  | (c', Raised e) => (c', Some e)
  | (_, Return s) =>
      let '(s1, r) := body s in
      let '(s2, r') :=
        match r with
        | None => finish s1
        | Some e => finish_error s1 e
        end in
      (cursor s2, r')
  end.

(** Statements of a block, one after the other, up to the first that
    raises. *)
Fixpoint sequence (steps : list (Session -> Session * option exn))
    (s : Session) : Session * option exn :=
  match steps with
  | [] => (s, None)
  | step :: rest =>
      match step s with
      | (s', None) => sequence rest s'
      | (s', Some e) => (s', Some e)
      end
  end.

(** [raise exc] *)
Definition raise (e : exn) (s : Session) : Session * option exn :=
  (s, Some e).

End Copy.

(** ** The data of [tests/test_copy.py] and the connections used as examples *)

Module Sample.

Definition server : Pq.PGconn := {| Pq.server_version := 130000 |}.

Definition utf8_connection : Text.Connection :=
  {| Text.client_encoding := "utf-8"; Text.pgconn := server |}.

Definition latin1_connection : Text.Connection :=
  {| Text.client_encoding := "iso8859-1"; Text.pgconn := server |}.

Definition ascii_connection : Text.Connection :=
  {| Text.client_encoding := "ascii"; Text.pgconn := server |}.

(** [eur = "€"] *)
Definition eur : N := 0x20AC.


Definition sample_records : list (list Copy.Value) :=
  [ [Copy.Int4 10; Copy.Int4 20; Copy.Str (Py.of_string "hello")];
    [Copy.Int4 40; Copy.PyNone; Copy.Str (Py.of_string "world")] ].

Definition sample_text : Py.bytes :=
  [x31; x30; x09; x32; x30; x09; x68; x65; x6c; x6c; x6f; x0a; x34; x30;
   x09; x5c; x4e; x09; x77; x6f; x72; x6c; x64; x0a].

Definition sample_binary_rows : list Py.bytes :=
  [
    [x50; x47; x43; x4f; x50; x59; x0a; xff; x0d; x0a; x00; x00; x00;
     x00; x00; x00; x00; x00; x00; x00; x03; x00; x00; x00; x04; x00;
     x00; x00; x0a; x00; x00; x00; x04; x00; x00; x00; x14; x00; x00;
     x00; x05; x68; x65; x6c; x6c; x6f];
    [x00; x03; x00; x00; x00; x04; x00; x00; x00; x28; xff; xff; xff;
     xff; x00; x00; x00; x05; x77; x6f; x72; x6c; x64];
    [xff; xff] ].

Definition sample_binary : Py.bytes := List.concat sample_binary_rows.

(** A transport whose server accepts a COPY ... FROM STDIN and reports
    [rows] rows on completion. *)
Definition copy_in_transport (rows : Z) : Copy.Transport :=
  {| Copy.wire := []; Copy.busy := 2; Copy.incoming := [];
     Copy.copy_done := false; Copy.copy_fail := None;
     Copy.reply := {| Copy.status := Copy.COPY_IN; Copy.rowsAffected := -1;
                      Copy.errorInfo := None |};
     Copy.completion := {| Copy.status := Copy.COMMAND_OK;
                           Copy.rowsAffected := rows;
                           Copy.errorInfo := None |};
     Copy.abort_reveals := true;
     Copy.transaction_status := Copy.INTRANS |}.

(** A transport whose server answers a COPY ... TO STDOUT with the given
    blocks. *)
Definition copy_out_transport (blocks : list Copy.Chunk) (rows : Z)
  : Copy.Transport :=
  {| Copy.wire := []; Copy.busy := 0; Copy.incoming := blocks;
     Copy.copy_done := false; Copy.copy_fail := None;
     Copy.reply := {| Copy.status := Copy.COPY_OUT; Copy.rowsAffected := -1;
                      Copy.errorInfo := None |};
     Copy.completion := {| Copy.status := Copy.COMMAND_OK;
                           Copy.rowsAffected := rows;
                           Copy.errorInfo := None |};
     Copy.abort_reveals := true;
     Copy.transaction_status := Copy.INTRANS |}.

(** A transport whose server rejects the statement. *)
Definition rejecting_transport (info : Copy.ErrorInfo) : Copy.Transport :=
  {| Copy.wire := []; Copy.busy := 0; Copy.incoming := [];
     Copy.copy_done := false; Copy.copy_fail := None;
     Copy.reply := {| Copy.status := Copy.FATAL_ERROR;
                      Copy.rowsAffected := -1;
                      Copy.errorInfo := Some info |};
     Copy.completion := {| Copy.status := Copy.COMMAND_OK;
                           Copy.rowsAffected := 0;
                           Copy.errorInfo := None |};
     Copy.abort_reveals := true;
     Copy.transaction_status := Copy.INTRANS |}.

Definition cursor_on (t : Copy.Transport) (count : Z) : Copy.Cursor :=
  {| Copy.rowcount := count; Copy.transport := t;
     Copy.context := Some utf8_connection |}.

(** The two blocks of the     [x31; x30; x09; x32; x30; x09; x68; x65; x6c; x6c; x6f; x0a; x34; x30;
   x09; x5c; x4e; x09; x77; x6f; x72; x6c; x64; x0a] sample as the server delivers them. *)
Definition text_blocks : list Copy.Chunk :=
  [ {| Copy.first_octet := "1"%byte;
       Copy.more_octets :=
         list_byte_of_string "0" ++ [Copy.TAB] ++ list_byte_of_string "20"
         ++ [Copy.TAB] ++ list_byte_of_string "hello" ++ [Copy.LF] |};
    {| Copy.first_octet := "4"%byte;
       Copy.more_octets :=
         list_byte_of_string "0" ++ [Copy.TAB; Pq.backslash; "N"%byte]
         ++ [Copy.TAB] ++ list_byte_of_string "world" ++ [Copy.LF] |} ].

(** The block of [test_copy_in_buffers_with_py_error]. *)
Definition py_error : Copy.exn := Copy.Exception "nuttengoggenio".

Definition failing_block (s : Copy.Session) : Copy.Session * option Copy.exn :=
  Copy.sequence [fun s' => Copy.write s' sample_text; Copy.raise py_error] s.

(** The block of [test_copy_in_records]. *)
Definition records_block (s : Copy.Session)
  : Copy.Session * option Copy.exn :=
  Copy.sequence (map (fun row s' => Copy.write_row s' row) sample_records) s.

(** The session of [test_copy_out_read], as [cursor.copy] opens it. *)
Definition copy_out_session : Copy.Session :=
  {| Copy.direction := Copy.OUT; Copy.format := Pq.TEXT;
     Copy.state := Copy.OPEN; Copy.first_row := true;
     Copy.cursor :=
       cursor_on (copy_out_transport text_blocks 2) Copy.NOT_APPLICABLE |}.

(** The rows of [sample_text], line by line. *)
Definition sample_text_rows : list Py.bytes := map Copy.chunk_bytes text_blocks.

(** The block of the COPY-OUT run of [test_copy_rowcount]:
    [for block in copy: pass]; an error of [read] leaves the block. *)
Definition drain_block (s : Copy.Session) : Copy.Session * option Copy.exn :=
  match Copy.to_list s with
  | (s', Copy.Return _) => (s', None)
  | (s', Copy.Raised e) => (s', Some e)
  end.

End Sample.

(** ** The data generator of [tests/test_copy.py] *)

Module Generator.

(** [DataGenerator]; the connection it keeps is used by the database
    checks only. *)
Record DataGenerator : Type :=
  { nrecs : Z; srec : Z; offset : Z; block_size : Z }.

(** [DataGenerator(conn, nrecs, srec, offset=0, block_size=8192)] *)
Definition DataGenerator_init (n size : Z) (off blk : option Z)
  : DataGenerator :=
  {| nrecs := n; srec := size;
     offset := match off with Some o => o | None => 0%Z end;
     block_size := match blk with Some b => b | None => 8192%Z end |}.

(** [string.ascii_letters] *)
Definition ascii_letters : Py.str :=
  Py.of_string "abcdefghijklmnopqrstuvwxyzABCDEFGHIJKLMNOPQRSTUVWXYZ".

(** The [i]-th element of [cycle(string.ascii_letters)]. *)
Definition cycle_letter (i : nat) : N :=
  nth (i mod List.length ascii_letters) ascii_letters 0.

(** [records]: the pairs of [zip(range(nrecs), cycle(ascii_letters))],
    each turned into the key [i + offset] and the letter repeated [srec]
    times. *)
Definition records (g : DataGenerator) : list (Z * Py.str) :=
  map (fun i => ((Z.of_nat i + offset g)%Z,
                 repeat (cycle_letter i) (Z.to_nat (srec g))))
      (seq 0 (Z.to_nat (nrecs g))).

(** ["%s" % i] for an integer. *)
Definition str_of_int (i : Z) : Py.str :=
  Py.of_string (NilZero.string_of_int (Z.to_int i)).

(** ["%s\t%s\n" % (i, s)] *)
Definition line (r : Z * Py.str) : Py.str :=
  str_of_int (fst r) ++ [9] ++ snd r ++ [10].

(** [file]: the text written to the [StringIO]. *)
Definition file (g : DataGenerator) : Py.str := flat_map line (records g).

(** [f.read(size)] on what is left of the stream: everything when [size]
    is negative, at most [size] characters otherwise. *)
Definition StringIO_read (size : Z) (rest : Py.str) : Py.str * Py.str :=
  if (size <? 0)%Z then (rest, [])
  else (firstn (Z.to_nat size) rest, skipn (Z.to_nat size) rest).

(** The loop of [blocks]: read, stop at the first empty block.  A block
    that is not empty takes at least one character, so the length of the
    text bounds the number of turns. *)
Fixpoint blocks_loop (fuel : nat) (size : Z) (rest : Py.str)
  : list Py.str :=
  match StringIO_read size rest with
  | ([], _) => []
  | (block, rest') =>
      match fuel with
      | O => [block]
      | S k => block :: blocks_loop k size rest'
      end
  end.

(** [blocks] *)
Definition blocks (g : DataGenerator) : list Py.str :=
  blocks_loop (List.length (file g)) (block_size g) (file g).

End Generator.

(** * Properties *)

(** ** Octets and codecs *)

Ltac divmod := zify; Z.to_euclidean_division_equations; lia.

Lemma to_N_octet (n : N) : n < 256 -> Byte.to_N (Py.octet n) = n.
Proof.
  intro H. unfold Py.octet. rewrite N.mod_small by assumption.
  destruct (Byte.of_N n) eqn:E.
  - now apply Byte.to_of_N.
  - apply Byte.of_N_None_iff in E. lia.
Qed.

Lemma to_N_bound (b : byte) : Byte.to_N b < 256.
Proof. pose proof (Byte.to_N_bounded b). lia. Qed.

Lemma octet_to_N (b : byte) : Py.octet (Byte.to_N b) = b.
Proof.
  unfold Py.octet. rewrite N.mod_small by apply to_N_bound.
  now rewrite Byte.of_to_N.
Qed.

Lemma is_cont_octet (n : N) : n < 64 -> Py.is_cont (Py.octet (0x80 + n)) = true.
Proof.
  intro H. unfold Py.is_cont. rewrite to_N_octet by lia.
  apply andb_true_intro. split; [apply N.leb_le | apply N.ltb_lt]; lia.
Qed.

Lemma cont_bits_octet (n : N) : n < 64 -> Py.cont_bits (Py.octet (0x80 + n)) = n.
Proof. intro H. unfold Py.cont_bits. rewrite to_N_octet by lia. lia. Qed.

(** Unfolding the decoder by one octet. *)
Lemma utf8_decode_cons (b1 : byte) (r1 : Py.bytes) :
  Py.utf8_decode (b1 :: r1) =
  let n1 := Byte.to_N b1 in
  if n1 <? 0x80 then Py.fmap (cons n1) (Py.utf8_decode r1)
  else if n1 <? 0xC0 then Py.Raise Py.UnicodeDecodeError
  else
    match r1 with
    | [] => Py.Raise Py.UnicodeDecodeError
    | b2 :: r2 =>
        if negb (Py.is_cont b2) then Py.Raise Py.UnicodeDecodeError
        else if n1 <? 0xE0 then
          let c := (n1 - 0xC0) * 64 + Py.cont_bits b2 in
          if c <? 0x80 then Py.Raise Py.UnicodeDecodeError
          else Py.fmap (cons c) (Py.utf8_decode r2)
        else
          match r2 with
          | [] => Py.Raise Py.UnicodeDecodeError
          | b3 :: r3 =>
              if negb (Py.is_cont b3) then Py.Raise Py.UnicodeDecodeError
              else if n1 <? 0xF0 then
                let c := (n1 - 0xE0) * 4096 + Py.cont_bits b2 * 64
                         + Py.cont_bits b3 in
                if ((c <? 0x800) || ((0xD800 <=? c) && (c <=? 0xDFFF)))%bool
                then Py.Raise Py.UnicodeDecodeError
                else Py.fmap (cons c) (Py.utf8_decode r3)
              else
                match r3 with
                | [] => Py.Raise Py.UnicodeDecodeError
                | b4 :: r4 =>
                    if negb (Py.is_cont b4) then Py.Raise Py.UnicodeDecodeError
                    else if n1 <? 0xF8 then
                      let c := (n1 - 0xF0) * 262144 + Py.cont_bits b2 * 4096
                               + Py.cont_bits b3 * 64 + Py.cont_bits b4 in
                      if ((c <? 0x10000) || (0x110000 <=? c))%bool
                      then Py.Raise Py.UnicodeDecodeError
                      else Py.fmap (cons c) (Py.utf8_decode r4)
                    else Py.Raise Py.UnicodeDecodeError
                end
          end
    end.
Proof. reflexivity. Qed.

Lemma Ok_inj {A} (x y : A) : Py.Ok x = Py.Ok y -> x = y.
Proof. now intros [= ->]. Qed.

Ltac ltb_false := apply N.ltb_ge; divmod.
Ltac ltb_true := apply N.ltb_lt; divmod.

(** Decoding what one code point encodes to gives the code point back and
    goes on with the rest. *)
Lemma utf8_decode_encode_cp (c : N) (bs rest : Py.bytes) :
  Py.utf8_encode_cp c = Py.Ok bs ->
  Py.utf8_decode (bs ++ rest) = Py.fmap (cons c) (Py.utf8_decode rest).
Proof.
  unfold Py.utf8_encode_cp.
  destruct (c <? 0x80) eqn:H1.
  { apply N.ltb_lt in H1. intros E; apply Ok_inj in E; subst bs. cbn [app].
    rewrite utf8_decode_cons. cbv zeta. rewrite to_N_octet by lia.
    replace (c <? 0x80) with true by (symmetry; ltb_true). reflexivity. }
  apply N.ltb_ge in H1.
  destruct (c <? 0x800) eqn:H2.
  { apply N.ltb_lt in H2. intros E; apply Ok_inj in E; subst bs. cbn [app].
    rewrite utf8_decode_cons. cbv zeta.
    rewrite to_N_octet by divmod.
    rewrite is_cont_octet, cont_bits_octet by divmod. cbn [negb].
    replace (0xC0 + c / 64 <? 0x80) with false by (symmetry; ltb_false).
    replace (0xC0 + c / 64 <? 0xC0) with false by (symmetry; ltb_false).
    replace (0xC0 + c / 64 <? 0xE0) with true by (symmetry; ltb_true).
    replace ((0xC0 + c / 64 - 0xC0) * 64 + c mod 64) with c by divmod.
    replace (c <? 0x80) with false by (symmetry; ltb_false).
    reflexivity. }
  apply N.ltb_ge in H2.
  destruct (c <? 0x10000) eqn:H3.
  { apply N.ltb_lt in H3.
    destruct ((0xD800 <=? c) && (c <=? 0xDFFF))%bool eqn:H4; [discriminate|].
    intros E; apply Ok_inj in E; subst bs. cbn [app].
    rewrite utf8_decode_cons. cbv zeta.
    rewrite to_N_octet by divmod.
    rewrite !is_cont_octet, !cont_bits_octet by divmod. cbn [negb].
    replace (0xE0 + c / 4096 <? 0x80) with false by (symmetry; ltb_false).
    replace (0xE0 + c / 4096 <? 0xC0) with false by (symmetry; ltb_false).
    replace (0xE0 + c / 4096 <? 0xE0) with false by (symmetry; ltb_false).
    replace (0xE0 + c / 4096 <? 0xF0) with true by (symmetry; ltb_true).
    replace ((0xE0 + c / 4096 - 0xE0) * 4096 + (c / 64) mod 64 * 64
             + c mod 64) with c by divmod.
    rewrite H4.
    replace (c <? 0x800) with false by (symmetry; ltb_false).
    reflexivity. }
  apply N.ltb_ge in H3.
  destruct (c <? 0x110000) eqn:H5; [|discriminate].
  apply N.ltb_lt in H5. intros E; apply Ok_inj in E; subst bs. cbn [app].
  rewrite utf8_decode_cons. cbv zeta.
  rewrite to_N_octet by divmod.
  rewrite !is_cont_octet, !cont_bits_octet by divmod. cbn [negb].
  replace (0xF0 + c / 262144 <? 0x80) with false by (symmetry; ltb_false).
  replace (0xF0 + c / 262144 <? 0xC0) with false by (symmetry; ltb_false).
  replace (0xF0 + c / 262144 <? 0xE0) with false by (symmetry; ltb_false).
  replace (0xF0 + c / 262144 <? 0xF0) with false by (symmetry; ltb_false).
  replace (0xF0 + c / 262144 <? 0xF8) with true by (symmetry; ltb_true).
  replace ((0xF0 + c / 262144 - 0xF0) * 262144 + (c / 4096) mod 64 * 4096
           + (c / 64) mod 64 * 64 + c mod 64) with c by divmod.
  replace (c <? 0x10000) with false by (symmetry; ltb_false).
  replace (0x110000 <=? c) with false by (symmetry; apply N.leb_gt; lia).
  reflexivity.
Qed.

Lemma utf8_roundtrip (s : Py.str) :
  forall bs, Py.utf8_encode s = Py.Ok bs -> Py.utf8_decode bs = Py.Ok s.
Proof.
  induction s as [|c s IH]; intros bs; cbn [Py.utf8_encode].
  - intros E; apply Ok_inj in E; now subst bs.
  - destruct (Py.utf8_encode_cp c) as [b|] eqn:Ec; [|discriminate].
    cbn [Py.bind]. destruct (Py.utf8_encode s) as [bs'|]; [|discriminate].
    cbn [Py.bind]. intros E; apply Ok_inj in E; subst bs.
    rewrite (utf8_decode_encode_cp c b bs' Ec), (IH bs' eq_refl).
    reflexivity.
Qed.

Lemma single_roundtrip (limit : N) (s : Py.str) :
  limit <= 256 ->
  forall bs, Py.single_encode limit s = Py.Ok bs ->
             Py.single_decode limit bs = Py.Ok s.
Proof.
  intro Hl. induction s as [|c s IH]; intros bs; cbn [Py.single_encode].
  - intros E; apply Ok_inj in E; now subst bs.
  - destruct (c <? limit) eqn:Hc; [|discriminate].
    apply N.ltb_lt in Hc.
    destruct (Py.single_encode limit s) as [bs'|]; [|discriminate].
    cbn [Py.bind]. intros E; apply Ok_inj in E; subst bs.
    cbn [Py.single_decode]. rewrite to_N_octet by lia.
    replace (c <? limit) with true by (symmetry; now apply N.ltb_lt).
    now rewrite (IH bs' eq_refl).
Qed.

(** Decoding inverts encoding, for every codec. *)
Lemma codec_roundtrip (c : Py.codec) (s : Py.str) (bs : Py.bytes) :
  Py.codec_encode c s = Py.Ok bs -> Py.codec_decode c bs = Py.Ok s.
Proof.
  destruct c; cbn [Py.codec_encode Py.codec_decode].
  - apply utf8_roundtrip.
  - apply single_roundtrip; lia.
  - apply single_roundtrip; lia.
Qed.

Lemma utf8_encodable (s : Py.str) :
  Py.encodable Py.Utf8 s = true -> exists bs, Py.utf8_encode s = Py.Ok bs.
Proof.
  induction s as [|c s IH]; cbn [Py.encodable forallb Py.utf8_encode].
  - now exists [].
  - intro H. apply andb_prop in H as [Hc Hs].
    destruct (IH Hs) as [bs' ->].
    cbn [Py.encodable_cp] in Hc. apply andb_prop in Hc as [Hlt Hsur].
    unfold Py.utf8_encode_cp.
    apply negb_true_iff in Hsur. rewrite Hsur, Hlt.
    destruct (c <? 0x80); [eexists; reflexivity|].
    destruct (c <? 0x800); [eexists; reflexivity|].
    destruct (c <? 0x10000); eexists; reflexivity.
Qed.

Lemma single_encodable (limit : N) (s : Py.str) :
  forallb (fun p => p <? limit) s = true ->
  exists bs, Py.single_encode limit s = Py.Ok bs.
Proof.
  induction s as [|c s IH]; cbn [forallb Py.single_encode].
  - now exists [].
  - intro H. apply andb_prop in H as [Hc Hs].
    destruct (IH Hs) as [bs' ->]. rewrite Hc. eexists; reflexivity.
Qed.

(** A string of code points the codec covers is encoded. *)
Lemma codec_encodable (c : Py.codec) (s : Py.str) :
  Py.encodable c s = true -> exists bs, Py.codec_encode c s = Py.Ok bs.
Proof.
  destruct c; cbn [Py.codec_encode].
  - apply utf8_encodable.
  - apply single_encodable.
  - apply single_encodable.
Qed.

Lemma lookup_not_empty (enc : string) (c : Py.codec) :
  Py.lookup enc = Some c -> Text.truthy enc = true.
Proof.
  unfold Text.truthy. destruct (String.eqb_spec enc "") as [->|]; [|reflexivity].
  discriminate.
Qed.

Lemma existsb_NUL (s : Py.str) :
  In Text.NUL s -> existsb (N.eqb Text.NUL) s = true.
Proof.
  intro H. apply existsb_exists. exists Text.NUL. split; [assumption|].
  apply N.eqb_refl.
Qed.

(** ** The string adapters *)


Lemma fmap_Ok_inv {A B} (f : A -> B) (m : Py.result A) (y : B) :
  Py.fmap f m = Py.Ok y -> exists x, m = Py.Ok x /\ y = f x.
Proof.
  destruct m as [x|e]; cbn; [|discriminate].
  intros E; apply Ok_inj in E. now exists x.
Qed.

Lemma utf8_encode_cons (c : N) (s : Py.str) (b rest : Py.bytes) :
  Py.utf8_encode_cp c = Py.Ok b -> Py.utf8_encode s = Py.Ok rest ->
  Py.utf8_encode (c :: s) = Py.Ok (b ++ rest).
Proof. intros Hc Hs. cbn [Py.utf8_encode]. now rewrite Hc, Hs. Qed.

Ltac bool_hyps :=
  repeat match goal with
  | H : negb _ = false |- _ => apply negb_false_iff in H
  | H : (_ && _)%bool = true |- _ => apply andb_prop in H as [? ?]
  | H : (_ || _)%bool = false |- _ => apply orb_false_elim in H as [? ?]
  | H : (_ <? _) = true |- _ => apply N.ltb_lt in H
  | H : (_ <? _) = false |- _ => apply N.ltb_ge in H
  | H : (_ <=? _) = true |- _ => apply N.leb_le in H
  | H : (_ <=? _) = false |- _ => apply N.leb_gt in H
  end.

Lemma utf8_encode_decode_aux (n : nat) :
  forall data s, (List.length data <= n)%nat ->
    Py.utf8_decode data = Py.Ok s -> Py.utf8_encode s = Py.Ok data.
Proof.
  induction n as [|n IH]; intros data s Hlen.
  - destruct data; [|cbn in Hlen; lia].
    intros E; apply Ok_inj in E; now subst s.
  - destruct data as [|b1 r1].
    { intros E; apply Ok_inj in E; now subst s. }
    rewrite utf8_decode_cons. cbv zeta.
    pose proof (to_N_bound b1) as B1.
    destruct (Byte.to_N b1 <? 0x80) eqn:H1.
    { intro E. apply fmap_Ok_inv in E as [s' [Hs' ->]].
      apply IH in Hs'; [|cbn in Hlen; lia].
      change (b1 :: r1) with ([b1] ++ r1).
      apply utf8_encode_cons; [|assumption].
      unfold Py.utf8_encode_cp. rewrite H1. now rewrite octet_to_N. }
    destruct (Byte.to_N b1 <? 0xC0) eqn:H2; [discriminate|].
    destruct r1 as [|b2 r2]; [discriminate|].
    pose proof (to_N_bound b2) as B2.
    destruct (negb (Py.is_cont b2)) eqn:C2; [discriminate|].
    unfold Py.is_cont in C2. unfold Py.cont_bits.
    destruct (Byte.to_N b1 <? 0xE0) eqn:H3.
    { set (c := (Byte.to_N b1 - 0xC0) * 64 + (Byte.to_N b2 - 0x80)).
      destruct (c <? 0x80) eqn:H4; [discriminate|].
      intro E. apply fmap_Ok_inv in E as [s' [Hs' ->]].
      apply IH in Hs'; [|cbn in Hlen; lia].
      change (b1 :: b2 :: r2) with ([b1; b2] ++ r2).
      apply utf8_encode_cons; [|assumption].
      bool_hyps.
      assert (Hc : 0x80 <= c < 0x800) by (subst c; lia).
      unfold Py.utf8_encode_cp.
      replace (c <? 0x80) with false by (symmetry; apply N.ltb_ge; lia).
      replace (c <? 0x800) with true by (symmetry; apply N.ltb_lt; lia).
      replace (0xC0 + c / 64) with (Byte.to_N b1) by (subst c; divmod).
      replace (0x80 + c mod 64) with (Byte.to_N b2) by (subst c; divmod).
      now rewrite !octet_to_N. }
    destruct r2 as [|b3 r3]; [discriminate|].
    pose proof (to_N_bound b3) as B3.
    destruct (negb (Py.is_cont b3)) eqn:C3; [discriminate|].
    unfold Py.is_cont in C3.
    destruct (Byte.to_N b1 <? 0xF0) eqn:H5.
    { set (c := (Byte.to_N b1 - 0xE0) * 4096 + (Byte.to_N b2 - 0x80) * 64
                + (Byte.to_N b3 - 0x80)).
      destruct ((c <? 0x800) || ((0xD800 <=? c) && (c <=? 0xDFFF)))%bool
        eqn:H4; [discriminate|].
      intro E. apply fmap_Ok_inv in E as [s' [Hs' ->]].
      apply IH in Hs'; [|cbn in Hlen; lia].
      change (b1 :: b2 :: b3 :: r3) with ([b1; b2; b3] ++ r3).
      apply utf8_encode_cons; [|assumption].
      apply orb_false_elim in H4 as [H4 H6].
      bool_hyps.
      assert (Hc : 0x800 <= c < 0x10000) by (subst c; lia).
      unfold Py.utf8_encode_cp. rewrite H6.
      replace (c <? 0x80) with false by (symmetry; apply N.ltb_ge; lia).
      replace (c <? 0x800) with false by (symmetry; apply N.ltb_ge; lia).
      replace (c <? 0x10000) with true by (symmetry; apply N.ltb_lt; lia).
      replace (0xE0 + c / 4096) with (Byte.to_N b1) by (subst c; divmod).
      replace (0x80 + (c / 64) mod 64) with (Byte.to_N b2) by (subst c; divmod).
      replace (0x80 + c mod 64) with (Byte.to_N b3) by (subst c; divmod).
      now rewrite !octet_to_N. }
    destruct r3 as [|b4 r4]; [discriminate|].
    pose proof (to_N_bound b4) as B4.
    destruct (negb (Py.is_cont b4)) eqn:C4; [discriminate|].
    unfold Py.is_cont in C4.
    destruct (Byte.to_N b1 <? 0xF8) eqn:H7; [|discriminate].
    set (c := (Byte.to_N b1 - 0xF0) * 262144 + (Byte.to_N b2 - 0x80) * 4096
              + (Byte.to_N b3 - 0x80) * 64 + (Byte.to_N b4 - 0x80)).
    destruct ((c <? 0x10000) || (0x110000 <=? c))%bool eqn:H4; [discriminate|].
    intro E. apply fmap_Ok_inv in E as [s' [Hs' ->]].
    apply IH in Hs'; [|cbn in Hlen; lia].
    change (b1 :: b2 :: b3 :: b4 :: r4) with ([b1; b2; b3; b4] ++ r4).
    apply utf8_encode_cons; [|assumption].
    bool_hyps.
    assert (Hc : 0x10000 <= c < 0x110000) by (subst c; lia).
    unfold Py.utf8_encode_cp.
    replace (c <? 0x80) with false by (symmetry; apply N.ltb_ge; lia).
    replace (c <? 0x800) with false by (symmetry; apply N.ltb_ge; lia).
    replace (c <? 0x10000) with false by (symmetry; apply N.ltb_ge; lia).
    replace (c <? 0x110000) with true by (symmetry; apply N.ltb_lt; lia).
    replace (0xF0 + c / 262144) with (Byte.to_N b1) by (subst c; divmod).
    replace (0x80 + (c / 4096) mod 64) with (Byte.to_N b2) by (subst c; divmod).
    replace (0x80 + (c / 64) mod 64) with (Byte.to_N b3) by (subst c; divmod).
    replace (0x80 + c mod 64) with (Byte.to_N b4) by (subst c; divmod).
    now rewrite !octet_to_N.
Qed.

Lemma utf8_encode_decode (data : Py.bytes) (s : Py.str) :
  Py.utf8_decode data = Py.Ok s -> Py.utf8_encode s = Py.Ok data.
Proof. apply (utf8_encode_decode_aux (List.length data)). lia. Qed.

Lemma single_encode_decode (limit : N) (data : Py.bytes) :
  forall s, Py.single_decode limit data = Py.Ok s ->
            Py.single_encode limit s = Py.Ok data.
Proof.
  induction data as [|b r IH]; intros s; cbn [Py.single_decode].
  - intros E; apply Ok_inj in E; now subst s.
  - destruct (Byte.to_N b <? limit) eqn:Hb; [|discriminate].
    destruct (Py.single_decode limit r) as [s'|]; [|discriminate].
    cbn [Py.bind]. intros E; apply Ok_inj in E; subst s.
    cbn [Py.single_encode]. rewrite Hb, (IH s' eq_refl). cbn [Py.bind].
    now rewrite octet_to_N.
Qed.

(** What a codec decodes is the encoding of the decoded text: the bytes a
    codec accepts are exactly the encodings of some text. *)
Lemma codec_encode_decode (c : Py.codec) (data : Py.bytes) (s : Py.str) :
  Py.codec_decode c data = Py.Ok s -> Py.codec_encode c s = Py.Ok data.
Proof.
  destruct c; cbn [Py.codec_encode Py.codec_decode].
  - apply utf8_encode_decode.
  - apply single_encode_decode.
  - apply single_encode_decode.
Qed.

Lemma single_decode_high (limit : N) (data : Py.bytes) :
  existsb (fun b => limit <=? Byte.to_N b) data = true ->
  Py.single_decode limit data = Py.Raise Py.UnicodeDecodeError.
Proof.
  induction data as [|b r IH]; cbn [existsb Py.single_decode];
    [discriminate|].
  intro H. destruct (Byte.to_N b <? limit) eqn:Hb; [|reflexivity].
  apply N.ltb_lt in Hb. apply orb_prop in H as [H|H].
  - apply N.leb_le in H. lia.
  - now rewrite (IH H).
Qed.

(** C5. For every byte input, [TextLoader.load] on a context with a usable
    charset returns the input decoded in that charset (or the decoder's
    error), and on a context whose charset is unusable (the ASCII-only
    mode, kept as the empty encoding) returns the input itself as bytes. *)
Theorem C5_text_loader_decodes_or_passes_bytes
    (ctx : Text.AdaptContext) (data : Py.bytes) :
  Text.TextLoader_load (Text.TextLoader_init ctx) data =
    match ctx with
    | None => Py.fmap Py.VStr (Py.decode "utf-8" data)
    | Some conn =>
        if (String.eqb (Text.client_encoding conn) "ascii"
            || String.eqb (Text.client_encoding conn) "")%bool
        then Py.Ok (Py.VBytes data)
        else Py.fmap Py.VStr
               (Py.decode (Text.client_encoding conn) data)
    end
  /\ (Text.tl_encoding (Text.TextLoader_init ctx) = ""%string <->
      exists conn, ctx = Some conn
        /\ (Text.client_encoding conn = "ascii"%string
            \/ Text.client_encoding conn = ""%string))
  /\ (forall c s,
        Py.lookup (Text.tl_encoding (Text.TextLoader_init ctx)) = Some c ->
        Py.codec_encode c s = Py.Ok data ->
        Text.TextLoader_load (Text.TextLoader_init ctx) data
          = Py.Ok (Py.VStr s)).
Proof.
  split; [|split].
  - destruct ctx as [conn|]; [|reflexivity].
    unfold Text.TextLoader_load, Text.TextLoader_init, Text.truthy.
    cbn [Text.tl_encoding].
    destruct (String.eqb_spec (Text.client_encoding conn) "ascii") as [E|E];
      cbn [negb orb]; [reflexivity|].
    destruct (String.eqb (Text.client_encoding conn) ""); reflexivity.
  - destruct ctx as [conn|]; cbn [Text.TextLoader_init Text.tl_encoding].
    + destruct (String.eqb_spec (Text.client_encoding conn) "ascii") as [E|E];
        cbn [negb].
      * split; [intros _; exists conn; auto | reflexivity].
      * split.
        -- intro H. exists conn. auto.
        -- intros [conn' [[= <-] [H|H]]]; [contradiction | assumption].
    + split; [discriminate | intros [conn' [[=] _]]].
  - intros c s Hc Hs. unfold Text.TextLoader_load, Py.decode.
    rewrite (lookup_not_empty _ c Hc), Hc, (codec_roundtrip c s data Hs).
    reflexivity.
Qed.

(** C5, an instance: the UTF-8 bytes of the euro sign on a UTF-8
    connection. *)
Lemma C5_witness :
  Text.TextLoader_load (Text.TextLoader_init (Some Sample.utf8_connection))
    [xe2; x82; xac] = Py.Ok (Py.VStr [Sample.eur]).
Proof.
  exact (proj2 (proj2 (C5_text_loader_decodes_or_passes_bytes
                         (Some Sample.utf8_connection) [xe2; x82; xac]))
           Py.Utf8 [Sample.eur] eq_refl eq_refl).
Defined.

Lemma fmap_Raise_inv {A B} (f : A -> B) (m : Py.result A) (e : Py.exn) :
  Py.fmap f m = Py.Raise e -> m = Py.Raise e.
Proof. destruct m; cbn; [discriminate | now intros [= ->]]. Qed.

Lemma utf8_decode_error_aux (n : nat) :
  forall data e, (List.length data <= n)%nat ->
    Py.utf8_decode data = Py.Raise e -> e = Py.UnicodeDecodeError.
Proof.
  induction n as [|n IH]; intros data e Hlen.
  - destruct data; [discriminate | cbn in Hlen; lia].
  - destruct data as [|b1 r1]; [discriminate|].
    rewrite utf8_decode_cons. cbv zeta. cbn [List.length] in Hlen.
    repeat match goal with
    | |- Py.Raise _ = Py.Raise _ -> _ => now intros [= <-]
    | |- Py.fmap _ (Py.utf8_decode ?r) = Py.Raise _ -> _ =>
        let E := fresh "E" in
        intro E; apply fmap_Raise_inv in E; apply IH in E;
        [exact E | cbn [List.length] in *; lia]
    | |- (if ?b then _ else _) = _ -> _ => destruct b
    | |- match ?l with [] => _ | _ :: _ => _ end = _ -> _ =>
        destruct l; cbn [List.length] in Hlen
    end.
Qed.

Lemma single_decode_error (limit : N) (data : Py.bytes) (e : Py.exn) :
  Py.single_decode limit data = Py.Raise e -> e = Py.UnicodeDecodeError.
Proof.
  induction data as [|b r IH]; cbn [Py.single_decode]; [discriminate|].
  destruct (Byte.to_N b <? limit); [|now intros [= <-]].
  destruct (Py.single_decode limit r); [discriminate|].
  cbn [Py.bind]. intros [= <-]. now apply IH.
Qed.

(** The only error of a decoder is [UnicodeDecodeError]. *)
Lemma codec_decode_error (c : Py.codec) (data : Py.bytes) (e : Py.exn) :
  Py.codec_decode c data = Py.Raise e -> e = Py.UnicodeDecodeError.
Proof.
  destruct c; cbn [Py.codec_decode].
  - apply (utf8_decode_error_aux (List.length data)). lia.
  - apply single_decode_error.
  - apply single_decode_error.
Qed.

(** The charset [UnknownLoader] decodes with. *)
Lemma UnknownLoader_encoding (ctx : Text.AdaptContext) :
  Text.ul_encoding (Text.UnknownLoader_init ctx) =
    match ctx with
    | Some conn => Text.client_encoding conn
    | None => "utf-8"%string
    end.
Proof. now destruct ctx. Qed.

(** C8. [UnknownLoader], registered for [name] and [bpchar] in both
    formats, always decodes with the connection's charset: its result is
    never raw bytes, also in the ASCII-only mode, where [TextLoader]
    passes the bytes through; an input that is not the encoding of any
    text in that charset makes [load] raise. *)
Theorem C8_unknown_loader_always_decodes
    (ctx : Text.AdaptContext) (data : Py.bytes) :
  let enc := match ctx with
             | Some conn => Text.client_encoding conn
             | None => "utf-8"%string
             end in
  Text.UnknownLoader_load (Text.UnknownLoader_init ctx) data
    = Py.fmap Py.VStr (Py.decode enc data)
  /\ (forall b, Text.UnknownLoader_load (Text.UnknownLoader_init ctx) data
                <> Py.Ok (Py.VBytes b))
  /\ (forall c, Py.lookup enc = Some c ->
        (forall s, Py.codec_encode c s <> Py.Ok data) ->
        Text.UnknownLoader_load (Text.UnknownLoader_init ctx) data
          = Py.Raise Py.UnicodeDecodeError)
  /\ (enc = "ascii"%string ->
        existsb (fun b => 128 <=? Byte.to_N b) data = true ->
        Text.UnknownLoader_load (Text.UnknownLoader_init ctx) data
          = Py.Raise Py.UnicodeDecodeError
        /\ Text.TextLoader_load (Text.TextLoader_init ctx) data
           = Py.Ok (Py.VBytes data))
  /\ Text.resolve Pq.oid_name Pq.TEXT = Some Text.cls_UnknownLoader
  /\ Text.resolve Pq.oid_name Pq.BINARY = Some Text.cls_UnknownLoader
  /\ Text.resolve Pq.oid_bpchar Pq.TEXT = Some Text.cls_UnknownLoader
  /\ Text.resolve Pq.oid_bpchar Pq.BINARY = Some Text.cls_UnknownLoader.
Proof.
  intro enc.
  assert (Hload : Text.UnknownLoader_load (Text.UnknownLoader_init ctx) data
                  = Py.fmap Py.VStr (Py.decode enc data)).
  { unfold Text.UnknownLoader_load. now rewrite UnknownLoader_encoding. }
  split; [exact Hload|]. split; [|split; [|split]].
  - intros b. rewrite Hload. destruct (Py.decode enc data); discriminate.
  - intros c Hc Hinv. rewrite Hload. unfold Py.decode. rewrite Hc.
    destruct (Py.codec_decode c data) as [s|e] eqn:Hd.
    + exfalso. apply (Hinv s). now apply codec_encode_decode.
    + now rewrite (codec_decode_error c data e Hd).
  - intros Henc Hhigh. split.
    + rewrite Hload, Henc. unfold Py.decode. cbn [Py.lookup String.eqb].
      cbn. now rewrite (single_decode_high 128 data Hhigh).
    + destruct ctx as [conn|]; [|discriminate Henc].
      unfold Text.TextLoader_load, Text.TextLoader_init. subst enc.
      now rewrite Henc.
  - repeat split; reflexivity.
Qed.

(** C8, an instance: one octet above 127 on an ASCII-only connection. *)
Lemma C8_witness :
  Text.UnknownLoader_load
    (Text.UnknownLoader_init (Some Sample.ascii_connection)) [xe9]
    = Py.Raise Py.UnicodeDecodeError
  /\ Text.TextLoader_load
       (Text.TextLoader_init (Some Sample.ascii_connection)) [xe9]
     = Py.Ok (Py.VBytes [xe9]).
Proof.
  exact (proj1 (proj2 (proj2 (proj2
           (C8_unknown_loader_always_decodes
              (Some Sample.ascii_connection) [xe9]))))
           eq_refl eq_refl).
Defined.

(** C10. A string dumper built without a connection, or on a connection
    whose [client_encoding] is "ascii", encodes in UTF-8: the BINARY
    dumper returns the UTF-8 encoding of the value, the TEXT dumper too
    unless the value holds a NUL; every string of Unicode scalar values is
    encoded, and the bytes are the UTF-8 form of the string.  On the same
    ASCII-only connection the text loader passes bytes through. *)
Theorem C10_dumpers_fall_back_to_utf8
    (ctx : Text.AdaptContext) (s : Py.str) :
  (ctx = None \/
   exists conn, ctx = Some conn /\ Text.client_encoding conn = "ascii"%string) ->
  Text.sd_encoding (Text._StringDumper_init ctx) = "utf-8"%string
  /\ Text.StringBinaryDumper_dump (Text._StringDumper_init ctx) s
     = Py.utf8_encode s
  /\ Text.StringDumper_dump (Text._StringDumper_init ctx) s
     = (if existsb (N.eqb Text.NUL) s
        then Py.Raise (Py.DataError Text.nul_message)
        else Py.utf8_encode s)
  /\ (Py.encodable Py.Utf8 s = true ->
      exists b,
        Text.StringBinaryDumper_dump (Text._StringDumper_init ctx) s = Py.Ok b
        /\ Py.utf8_decode b = Py.Ok s)
  /\ (forall conn data, ctx = Some conn ->
        Text.TextLoader_load (Text.TextLoader_init ctx) data
          = Py.Ok (Py.VBytes data)).
Proof.
  intro H.
  assert (Henc : Text.sd_encoding (Text._StringDumper_init ctx)
                 = "utf-8"%string).
  { destruct H as [->|[conn [-> Hc]]]; [reflexivity|].
    cbn [Text._StringDumper_init]. now rewrite Hc. }
  assert (Hbin : Text.StringBinaryDumper_dump (Text._StringDumper_init ctx) s
                 = Py.utf8_encode s).
  { unfold Text.StringBinaryDumper_dump. now rewrite Henc. }
  split; [exact Henc|]. split; [exact Hbin|]. split; [|split].
  - unfold Text.StringDumper_dump. now rewrite Henc.
  - intro Hs. destruct (utf8_encodable s Hs) as [b Hb].
    exists b. rewrite Hbin. split; [exact Hb | now apply utf8_roundtrip].
  - intros conn data ->. destruct H as [H|[conn' [[= <-] Hc]]];
      [discriminate|].
    unfold Text.TextLoader_load, Text.TextLoader_init. now rewrite Hc.
Qed.

(** C10, an instance: the euro sign on an ASCII-only connection. *)
Lemma C10_witness :
  Text.sd_encoding (Text._StringDumper_init (Some Sample.ascii_connection))
    = "utf-8"%string
  /\ Text.StringBinaryDumper_dump
       (Text._StringDumper_init (Some Sample.ascii_connection)) [Sample.eur]
     = Py.Ok [xe2; x82; xac]
  /\ Text.StringDumper_dump
       (Text._StringDumper_init (Some Sample.ascii_connection)) [Sample.eur]
     = Py.Ok [xe2; x82; xac].
Proof.
  destruct (C10_dumpers_fall_back_to_utf8
              (Some Sample.ascii_connection) [Sample.eur]
              (or_intror (ex_intro _ Sample.ascii_connection
                            (conj eq_refl eq_refl))))
    as [He [Hb [Ht _]]].
  split; [exact He|]. split; [exact Hb | exact Ht].
Defined.

(** ** The blob adapters *)

Lemma hex_value_digit (n : N) :
  n < 16 -> Pq.hex_value (Pq.hex_digit n) = Some n.
Proof.
  intro H. unfold Pq.hex_digit, Pq.hex_value.
  destruct (n <? 10) eqn:Hn; bool_hyps; rewrite to_N_octet by lia.
  - replace (48 <=? 48 + n) with true by (symmetry; apply N.leb_le; lia).
    replace (48 + n <? 58) with true by (symmetry; apply N.ltb_lt; lia).
    cbn [andb]. f_equal. lia.
  - replace (87 + n <? 58) with false by (symmetry; apply N.ltb_ge; lia).
    rewrite andb_false_r.
    replace (97 <=? 87 + n) with true by (symmetry; apply N.leb_le; lia).
    replace (87 + n <? 103) with true by (symmetry; apply N.ltb_lt; lia).
    cbn [andb]. f_equal. lia.
Qed.

Lemma unescape_hex_escape (data : Py.bytes) :
  Pq.unescape_hex_body (Pq.escape_hex_body data) = data.
Proof.
  induction data as [|b r IH]; [reflexivity|].
  pose proof (to_N_bound b) as Hb.
  change (Pq.escape_hex_body (b :: r))
    with (Pq.hex_digit (Byte.to_N b / 16)
          :: Pq.hex_digit (Byte.to_N b mod 16) :: Pq.escape_hex_body r).
  cbn [Pq.unescape_hex_body].
  rewrite !hex_value_digit by divmod. rewrite IH.
  replace (Byte.to_N b / 16 * 16 + Byte.to_N b mod 16) with (Byte.to_N b)
    by divmod.
  now rewrite octet_to_N.
Qed.

Lemma unescape_octal_octet (b : byte) (rest : Py.bytes) :
  Pq.unescape_octal (Pq.escape_octal_octet b ++ rest)
    = b :: Pq.unescape_octal rest.
Proof. destruct b; reflexivity. Qed.

Lemma unescape_octal_escape (data : Py.bytes) :
  Pq.unescape_octal (flat_map Pq.escape_octal_octet data) = data.
Proof.
  induction data as [|b r IH]; [reflexivity|].
  cbn [flat_map]. now rewrite unescape_octal_octet, IH.
Qed.

Lemma unescape_bytea_octal (e : Pq.Escaping) (data : Py.bytes) :
  Pq.unescape_bytea e (flat_map Pq.escape_octal_octet data)
    = Pq.unescape_octal (flat_map Pq.escape_octal_octet data).
Proof.
  destruct data as [|b r]; [reflexivity|]. cbn [flat_map].
  destruct b; try reflexivity;
    destruct (flat_map Pq.escape_octal_octet r); reflexivity.
Qed.

(** Unescaping inverts escaping, whichever helper did the escaping. *)
Lemma unescape_escape_bytea (e e' : Pq.Escaping) (data : Py.bytes) :
  Pq.unescape_bytea e' (Pq.escape_bytea e data) = data.
Proof.
  unfold Pq.escape_bytea. destruct (Pq.uses_hex e).
  - cbn. apply unescape_hex_escape.
  - rewrite unescape_bytea_octal. apply unescape_octal_escape.
Qed.

Lemma ByteaLoader_init_sets (oid : N) (ctx : Text.AdaptContext)
    (st : Text.ClassState) :
  exists e, Text.cls_escaping (snd (Text.ByteaLoader_init oid ctx st)) = Some e.
Proof.
  unfold Text.ByteaLoader_init.
  destruct (Text.cls_escaping st) as [e|] eqn:E; cbn [snd].
  - now exists e.
  - eexists; reflexivity.
Qed.

(** C2. For every byte sequence the BINARY-format blob dumper and loader
    each return their argument, so dumping then loading returns it; the
    BINARY loader is the one registered for [bytea] and for the reserved
    [INVALID_OID], hence also the one resolved for any type without a
    BINARY loader of its own.  In TEXT format, loading with a
    [ByteaLoader] what a [BytesDumper] dumped returns the byte sequence,
    whatever connection either was built on. *)
Theorem C2_blob_roundtrips (data : Py.bytes) :
  Text.BytesBinaryDumper_dump data = data
  /\ Text.ByteaBinaryLoader_load data = data
  /\ Text.ByteaBinaryLoader_load (Text.BytesBinaryDumper_dump data) = data
  /\ Text.resolve Pq.oid_bytea Pq.BINARY = Some Text.cls_ByteaBinaryLoader
  /\ Text.resolve Pq.INVALID_OID Pq.BINARY = Some Text.cls_ByteaBinaryLoader
  /\ (forall oid,
        Text.registered Text.registrations (oid, Pq.BINARY) = None ->
        Text.resolve oid Pq.BINARY = Some Text.cls_ByteaBinaryLoader)
  /\ (forall fresh ctx oid ctx' st,
        let '(self, st') := Text.ByteaLoader_init oid ctx' st in
        Text.ByteaLoader_load self st'
          (Text.BytesDumper_dump (Text.BytesDumper_init fresh ctx) data)
        = Some data).
Proof.
  repeat (split; [reflexivity|]). split.
  - intros oid H. unfold Text.resolve. now rewrite H.
  - intros fresh ctx oid ctx' st.
    destruct (Text.ByteaLoader_init oid ctx' st) as [self st'] eqn:E.
    destruct (ByteaLoader_init_sets oid ctx' st) as [e He].
    rewrite E in He. cbn [snd] in He.
    unfold Text.ByteaLoader_load, Text.ByteaLoader_escaping. rewrite He.
    unfold Text.BytesDumper_dump. now rewrite unescape_escape_bytea.
Qed.

(** C2, an instance: a type without a BINARY loader of its own (oid 23)
    resolves to the loader of the reserved identifier. *)
Lemma C2_witness :
  Text.resolve 23 Pq.BINARY = Some Text.cls_ByteaBinaryLoader.
Proof.
  exact (proj1 (proj2 (proj2 (proj2 (proj2 (proj2
           (C2_blob_roundtrips []))))))
           23 eq_refl).
Defined.

(** The two quoting conventions on a NUL, a backslash and a letter. *)
Example escape_without_connection :
  Text.BytesDumper_dump (Text.BytesDumper_init 0 None) [x00; x5c; x41]
    = list_byte_of_string "\000\\A".
Proof. reflexivity. Qed.

Example escape_with_connection :
  Text.BytesDumper_dump
    (Text.BytesDumper_init 0 (Some Sample.utf8_connection)) [x00; x5c; x41]
    = list_byte_of_string "\x005c41".
Proof. reflexivity. Qed.

(** Constructions leave an attribute that is set alone and allocate
    nothing more. *)
Lemma construct_all_set (args : list (N * Text.AdaptContext))
    (st : Text.ClassState) (e : Pq.Escaping) :
  Text.cls_escaping st = Some e -> snd (Text.construct_all args st) = st.
Proof.
  intro H. induction args as [|[oid ctx] rest IH]; [reflexivity|].
  cbn [Text.construct_all]. unfold Text.ByteaLoader_init. rewrite H.
  destruct (Text.construct_all rest st) as [others st2].
  exact IH.
Qed.

Lemma construct_all_length (args : list (N * Text.AdaptContext))
    (st : Text.ClassState) :
  List.length (fst (Text.construct_all args st)) = List.length args.
Proof.
  revert st. induction args as [|[oid ctx] rest IH]; intro st; [reflexivity|].
  cbn [Text.construct_all].
  destruct (Text.ByteaLoader_init oid ctx st) as [self st1].
  specialize (IH st1).
  destruct (Text.construct_all rest st1) as [others st2].
  cbn [fst List.length] in *. now rewrite IH.
Qed.

(** C9. Whatever loaders are constructed, one after the other, starting
    with the class attribute unset: the first construction allocates the
    helper and stores it in the class attribute, no later construction
    allocates another, and every instance finds that one helper under
    [_escaping]. *)
Theorem C9_escaping_created_once
    (first : N * Text.AdaptContext) (others : list (N * Text.AdaptContext)) :
  let shared := {| Pq.esc_id := 0; Pq.esc_conn := None |} in
  let after_first :=
    snd (Text.ByteaLoader_init (fst first) (snd first) Text.initial_state) in
  let '(loaders, final) :=
    Text.construct_all (first :: others) Text.initial_state in
  Text.allocated after_first = 1%nat
  /\ Text.cls_escaping after_first = Some shared
  /\ snd (Text.construct_all others after_first) = after_first
  /\ final = after_first
  /\ Text.allocated final = 1%nat
  /\ List.length loaders = S (List.length others)
  /\ forall self, In self loaders ->
       Text.ByteaLoader_escaping self final = Some shared.
Proof.
  intros shared after_first.
  destruct (Text.construct_all (first :: others) Text.initial_state)
    as [loaders final] eqn:E.
  assert (Hafter : after_first
                   = {| Text.cls_escaping := Some shared;
                        Text.allocated := 1 |}) by reflexivity.
  assert (Hrest : snd (Text.construct_all others after_first) = after_first).
  { apply (construct_all_set others after_first shared). now rewrite Hafter. }
  assert (Hfinal : final = after_first).
  { destruct first as [oid ctx]. cbn [Text.construct_all] in E.
    change (Text.ByteaLoader_init oid ctx Text.initial_state)
      with ({| Text.bl_oid := oid; Text.bl_context := ctx |}, after_first)
      in E.
    cbv iota beta in E.
    destruct (Text.construct_all others after_first) as [l st2].
    cbn [snd] in Hrest. now inversion E; subst. }
  pose proof (construct_all_length (first :: others) Text.initial_state)
    as Hl. rewrite E in Hl. cbn [fst List.length] in Hl.
  subst final.
  split; [reflexivity|]. split; [reflexivity|]. split; [exact Hrest|].
  split; [reflexivity|]. split; [reflexivity|]. split; [exact Hl|].
  intros self _. reflexivity.
Qed.

(** ** The COPY stream controller *)

Lemma prefix_app (m s : string) : String.prefix m (m ++ s) = true.
Proof.
  induction m as [|a m IH]; cbn.
  - now destruct s.
  - destruct (Ascii.ascii_dec a a) as [_|N]; [exact IH | now elim N].
Qed.

Lemma contains_refl (m : string) : Copy.contains m m = true.
Proof.
  pose proof (prefix_app m "") as H.
  replace (m ++ "")%string with m in H
    by (clear; induction m; cbn; congruence).
  destruct m; cbn in *; now rewrite ?H.
Qed.

Lemma contains_app (p m : string) : Copy.contains m (p ++ m) = true.
Proof.
  induction p as [|a p IH]; cbn [append].
  - apply contains_refl.
  - cbn [Copy.contains]. rewrite IH. now destruct (String.prefix m _).
Qed.

(** The retry loop ends with the block on the wire and nothing else
    changed. *)
Lemma send_all_spec (block : Py.bytes) (n : nat) :
  forall t, Copy.busy t = n ->
    Copy.send_all n t block =
      {| Copy.wire := Copy.wire t ++ block; Copy.busy := 0;
         Copy.incoming := Copy.incoming t;
         Copy.copy_done := Copy.copy_done t;
         Copy.copy_fail := Copy.copy_fail t;
         Copy.reply := Copy.reply t; Copy.completion := Copy.completion t;
         Copy.abort_reveals := Copy.abort_reveals t;
         Copy.transaction_status := Copy.transaction_status t |}.
Proof.
  induction n as [|n IH]; intros t Hb.
  - cbn [Copy.send_all]. unfold Copy.send. now rewrite Hb.
  - cbn [Copy.send_all]. unfold Copy.send. rewrite Hb.
    rewrite IH by reflexivity. reflexivity.
Qed.

(** C3. When the block of an open COPY-IN session raises an error, the
    controller sends the abort carrying the error's text, finalizes the
    session and leaves the transaction failed; the error that leaves the
    block is the caller's own, unless the server answers the abort with
    an error, which is then raised and has the caller's text in its
    message.  Either way the message of the raised error contains the
    caller's text. *)
Theorem C3_caller_error_aborts_copy_in
    (fmt : Pq.Format) (c c0 : Copy.Cursor)
    (body : Copy.Session -> Copy.Session * option Copy.exn)
    (s0 s1 : Copy.Session) (e : Copy.exn) :
  Copy.Cursor_copy fmt c = (c0, Copy.Return s0) ->
  body s0 = (s1, Some e) ->
  Copy.state s1 = Copy.OPEN ->
  Copy.direction s1 = Copy.IN ->
  exists s2 e',
    Copy.finish_error s1 e = (s2, Some e')
    /\ Copy.with_copy fmt c body = (Copy.cursor s2, Some e')
    /\ Copy.state s2 = Copy.FINALIZED
    /\ Copy.copy_fail (Copy.transport (Copy.cursor s2))
       = Some (Copy.exn_message e)
    /\ Copy.transaction_status (Copy.transport (Copy.cursor s2)) = Copy.INERROR
    /\ Copy.rowcount (Copy.cursor s2) = Copy.rowcount (Copy.cursor s1)
    /\ Copy.contains (Copy.exn_message e) (Copy.exn_message e') = true
    /\ (if Copy.abort_reveals (Copy.transport (Copy.cursor s1))
        then e' = Copy.ServerError
                    {| Copy.sqlstate := Copy.QueryCanceled;
                       Copy.message :=
                         "COPY from stdin failed: " ++ Copy.exn_message e |}
        else e' = e).
Proof.
  intros Hopen Hbody Hstate Hdir.
  unfold Copy.with_copy. rewrite Hopen, Hbody.
  unfold Copy.finish_error. rewrite Hstate, Hdir.
  unfold Copy.getResult. cbn [Copy.sendCopyFail Copy.copy_fail
                              Copy.abort_reveals].
  destruct (Copy.abort_reveals (Copy.transport (Copy.cursor s1))).
  - cbn. eexists. eexists. split; [reflexivity|].
    repeat split.
    exact (contains_app "COPY from stdin failed: " (Copy.exn_message e)).
  - cbn. eexists. eexists. split; [reflexivity|].
    repeat split. apply contains_refl.
Qed.

(** C3, the run of [test_copy_in_buffers_with_py_error]: the server's
    [QueryCanceled] leaves the block, with the caller's text inside. *)
Lemma C3_witness :
  exists c',
    Copy.with_copy Pq.TEXT
      (Sample.cursor_on (Sample.copy_in_transport 2) 5) Sample.failing_block
    = (c', Some (Copy.ServerError
                   {| Copy.sqlstate := Copy.QueryCanceled;
                      Copy.message :=
                        "COPY from stdin failed: nuttengoggenio" |}))
    /\ Copy.transaction_status (Copy.transport c') = Copy.INERROR
    /\ Copy.wire (Copy.transport c') = Sample.sample_text.
Proof.
  destruct (C3_caller_error_aborts_copy_in Pq.TEXT
              (Sample.cursor_on (Sample.copy_in_transport 2) 5) _
              Sample.failing_block _ _ Sample.py_error
              eq_refl eq_refl eq_refl eq_refl)
    as [s2 [e' [Hf [Hw [_ [_ [Htx [_ [_ He]]]]]]]]].
  exists (Copy.cursor s2). cbn in He. subst e'.
  split; [exact Hw|]. split; [exact Htx|].
  cbv in Hf. now inversion Hf.
Defined.

Lemma read_finalized (s : Copy.Session) :
  Copy.direction s = Copy.OUT -> Copy.state s = Copy.FINALIZED ->
  Copy.read s = (s, Copy.Return []).
Proof. intros Hd Hs. unfold Copy.read. now rewrite Hd, Hs. Qed.

Lemma reads_finalized (n : nat) (s : Copy.Session) :
  Copy.direction s = Copy.OUT -> Copy.state s = Copy.FINALIZED ->
  Copy.reads n s = (s, repeat (Copy.Return []) n).
Proof.
  intros Hd Hs. induction n as [|n IH]; [reflexivity|].
  cbn [Copy.reads repeat]. now rewrite read_finalized, IH.
Qed.

Lemma complete_finalizes (s s' : Copy.Session) (t : Copy.Transport)
    (r : option Copy.exn) :
  Copy.complete s t = (s', r) ->
  Copy.direction s' = Copy.direction s /\ Copy.state s' = Copy.FINALIZED.
Proof.
  unfold Copy.complete. destruct (Copy.getResult t) as [r0 t'].
  destruct (Copy.errorInfo r0); intro H; inversion H; subst; now split.
Qed.

(** A [read] that does not return a block leaves the session finalized. *)
Lemma read_no_block (s s1 : Copy.Session) (r : Copy.outcome Py.bytes) :
  Copy.direction s = Copy.OUT -> Copy.read s = (s1, r) ->
  (forall c rest, r <> Copy.Return (c :: rest)) ->
  Copy.direction s1 = Copy.OUT /\ Copy.state s1 = Copy.FINALIZED.
Proof.
  intros Hd Hr Hempty. unfold Copy.read in Hr. rewrite Hd in Hr.
  destruct (Copy.state s) eqn:Hs.
  - unfold Copy.receive in Hr.
    destruct (Copy.incoming (Copy.transport (Copy.cursor s))) as [|c rest].
    + destruct (Copy.complete s (Copy.transport (Copy.cursor s)))
        as [s' [e|]] eqn:Hc;
        apply complete_finalizes in Hc as [Hd' Hs'];
        inversion Hr; subst; rewrite <- Hd; now split.
    + inversion Hr; subst. now elim (Hempty (Copy.first_octet c)
                                       (Copy.more_octets c)).
  - inversion Hr; subst. now split.
Qed.

(** Iteration and repeated reading agree on an open COPY-OUT session. *)
Lemma iterate_reads_open (pending : list Copy.Chunk) :
  forall s, Copy.incoming (Copy.transport (Copy.cursor s)) = pending ->
    Copy.direction s = Copy.OUT -> Copy.state s = Copy.OPEN ->
    Copy.iterate (List.length pending) s
    = (fst (Copy.reads (S (List.length pending)) s),
       Copy.until_empty (snd (Copy.reads (S (List.length pending)) s))).
Proof.
  induction pending as [|c rest IH]; intros s Hin Hd Hs.
  - cbn [List.length Copy.iterate Copy.reads].
    destruct (Copy.read s) as [s1 r] eqn:Hr. cbn [fst snd].
    unfold Copy.read, Copy.receive in Hr. rewrite Hd, Hs, Hin in Hr.
    destruct (Copy.complete s (Copy.transport (Copy.cursor s)))
      as [s' [e|]]; inversion Hr; subst; reflexivity.
  - cbn [List.length]. set (k := List.length rest) in *.
    change (Copy.reads (S (S k)) s)
      with (let '(s1, r) := Copy.read s in
            let '(s2, rs) := Copy.reads (S k) s1 in (s2, r :: rs)).
    cbn [Copy.iterate].
    assert (Hr : Copy.read s
                 = (Copy.with_transport s
                      (snd (Copy.receive (Copy.transport (Copy.cursor s)))),
                    Copy.Return (Copy.chunk_bytes c))).
    { unfold Copy.read, Copy.receive. now rewrite Hd, Hs, Hin. }
    rewrite Hr. cbn [Copy.chunk_bytes].
    specialize (IH (Copy.with_transport s
                      (snd (Copy.receive (Copy.transport (Copy.cursor s)))))).
    rewrite IH; [| unfold Copy.receive; now rewrite Hin | assumption
                 | assumption].
    destruct (Copy.reads (S k) _) as [s2 rs]. cbn [fst snd Copy.until_empty].
    destruct (Copy.until_empty rs); reflexivity.
Qed.

Lemma reads_copy_in (n : nat) (s : Copy.Session) :
  Copy.direction s = Copy.IN ->
  Copy.reads n s = (s, repeat (Copy.Raised Copy.not_copy_out) n).
Proof.
  intro Hd. induction n as [|n IH]; [reflexivity|].
  cbn [Copy.reads repeat]. unfold Copy.read at 1. rewrite Hd, IH.
  reflexivity.
Qed.

(** [list(copy)] gathers what repeated calls of [read] return up to the
    first empty result, and leaves the session as they do. *)
Lemma to_list_reads (s : Copy.Session) :
  let n := S (List.length (Copy.incoming (Copy.transport (Copy.cursor s)))) in
  Copy.to_list s = (fst (Copy.reads n s), Copy.until_empty (snd (Copy.reads n s))).
Proof.
  intro n. unfold Copy.to_list. subst n.
  destruct (Copy.direction s) eqn:Hd.
  - rewrite reads_copy_in by assumption. cbn [fst snd repeat Copy.until_empty].
    destruct (List.length _); cbn [Copy.iterate]; unfold Copy.read;
      now rewrite Hd.
  - destruct (Copy.state s) eqn:Hs.
    + now apply iterate_reads_open.
    + rewrite reads_finalized by assumption.
      cbn [fst snd repeat Copy.until_empty].
      destruct (List.length _); cbn [Copy.iterate];
        now rewrite read_finalized.
Qed.

(** With a server that reports success, the reads are the pending blocks,
    in order, and then the empty result. *)
Lemma reads_pending (pending : list Copy.Chunk) :
  forall s, Copy.incoming (Copy.transport (Copy.cursor s)) = pending ->
    Copy.direction s = Copy.OUT -> Copy.state s = Copy.OPEN ->
    Copy.copy_fail (Copy.transport (Copy.cursor s)) = None ->
    Copy.errorInfo (Copy.completion (Copy.transport (Copy.cursor s))) = None ->
    snd (Copy.reads (S (List.length pending)) s)
    = map (fun c => Copy.Return (Copy.chunk_bytes c)) pending
      ++ [Copy.Return []].
Proof.
  induction pending as [|c rest IH]; intros s Hin Hd Hs Hf He.
  - cbn [List.length Copy.reads map app].
    unfold Copy.read, Copy.receive, Copy.complete, Copy.getResult,
      Copy.deliver.
    rewrite Hd, Hs, Hin, Hf, He. cbn. rewrite ?He. reflexivity.
  - cbn [List.length map app]. set (k := List.length rest) in *.
    change (Copy.reads (S (S k)) s)
      with (let '(s1, r) := Copy.read s in
            let '(s2, rs) := Copy.reads (S k) s1 in (s2, r :: rs)).
    assert (Hr : Copy.read s
                 = (Copy.with_transport s
                      (snd (Copy.receive (Copy.transport (Copy.cursor s)))),
                    Copy.Return (Copy.chunk_bytes c))).
    { unfold Copy.read, Copy.receive. now rewrite Hd, Hs, Hin. }
    set (s1 := Copy.with_transport s
                 (snd (Copy.receive (Copy.transport (Copy.cursor s))))) in *.
    assert (H1 : Copy.incoming (Copy.transport (Copy.cursor s1)) = rest)
      by (unfold s1, Copy.receive; now rewrite Hin).
    assert (H4 : Copy.copy_fail (Copy.transport (Copy.cursor s1)) = None)
      by (unfold s1, Copy.receive; now rewrite Hin).
    assert (H5 : Copy.errorInfo
                   (Copy.completion (Copy.transport (Copy.cursor s1))) = None)
      by (unfold s1, Copy.receive; now rewrite Hin).
    specialize (IH s1 H1 Hd Hs H4 H5).
    rewrite Hr. cbv beta iota.
    destruct (Copy.reads (S k) s1) as [s2 rs]. cbn [snd] in *.
    now rewrite IH.
Qed.

Lemma until_empty_pending (pending : list Copy.Chunk) :
  Copy.until_empty
    (map (fun c => Copy.Return (Copy.chunk_bytes c)) pending
     ++ [Copy.Return []])
  = Copy.Return (map Copy.chunk_bytes pending).
Proof.
  induction pending as [|c rest IH]; [reflexivity|].
  cbn [map app Copy.until_empty Copy.chunk_bytes]. now rewrite IH.
Qed.

(** C4. On a COPY-OUT session, once [read] has returned the empty result
    every further [read] returns it again and changes nothing; iterating
    the session gathers exactly what repeated calls of [read] return up
    to the first empty result and leaves the session in the same state;
    on an open session whose server reports success these are the
    pending blocks, in order. *)
Theorem C4_exhaustion_idempotent_iteration_agrees (s : Copy.Session) :
  Copy.direction s = Copy.OUT ->
  let pending := Copy.incoming (Copy.transport (Copy.cursor s)) in
  (forall s1, Copy.read s = (s1, Copy.Return []) ->
     forall n, Copy.reads n s1 = (s1, repeat (Copy.Return []) n))
  /\ Copy.to_list s
     = (fst (Copy.reads (S (List.length pending)) s),
        Copy.until_empty (snd (Copy.reads (S (List.length pending)) s)))
  /\ (Copy.state s = Copy.OPEN ->
      Copy.copy_fail (Copy.transport (Copy.cursor s)) = None ->
      Copy.errorInfo (Copy.completion (Copy.transport (Copy.cursor s)))
        = None ->
      snd (Copy.reads (S (List.length pending)) s)
        = map (fun c => Copy.Return (Copy.chunk_bytes c)) pending
          ++ [Copy.Return []]
      /\ snd (Copy.to_list s) = Copy.Return (map Copy.chunk_bytes pending)).
Proof.
  intros Hd pending. split; [|split].
  - intros s1 Hr n.
    destruct (read_no_block s s1 _ Hd Hr) as [Hd1 Hs1]; [discriminate|].
    now apply reads_finalized.
  - apply to_list_reads.
  - intros Hs Hf He.
    pose proof (reads_pending pending s eq_refl Hd Hs Hf He) as Hp.
    split; [exact Hp|].
    rewrite to_list_reads. cbn [snd]. fold pending. rewrite Hp.
    apply until_empty_pending.
Qed.

(** C4, the run of [test_copy_out_read] and [test_copy_out_iter]: two
    rows, then the empty result twice; iteration gives the two rows. *)
Lemma C4_witness :
  snd (Copy.reads 3 Sample.copy_out_session)
    = map Copy.Return Sample.sample_text_rows ++ [Copy.Return []]
  /\ snd (Copy.to_list Sample.copy_out_session)
     = Copy.Return Sample.sample_text_rows
  /\ (let exhausted := fst (Copy.reads 3 Sample.copy_out_session) in
      Copy.reads 2 exhausted
      = (exhausted, [Copy.Return []; Copy.Return []]))
  /\ List.concat Sample.sample_text_rows = Sample.sample_text.
Proof.
  destruct (C4_exhaustion_idempotent_iteration_agrees
              Sample.copy_out_session eq_refl) as [_ [_ Hopen]].
  destruct (Hopen eq_refl eq_refl eq_refl) as [Hreads Hlist].
  split; [exact Hreads|]. split; [exact Hlist|]. split; [|reflexivity].
  destruct (C4_exhaustion_idempotent_iteration_agrees
              (fst (Copy.reads 2 Sample.copy_out_session)) eq_refl)
    as [Hidem _].
  exact (Hidem (fst (Copy.reads 3 Sample.copy_out_session)) eq_refl 2%nat).
Defined.

Lemma write_spec (s : Copy.Session) (block : Py.bytes) :
  Copy.direction s = Copy.IN -> Copy.state s = Copy.OPEN ->
  exists s', Copy.write s block = (s', None)
             /\ Copy.wrote s s' block
             /\ Copy.first_row s' = Copy.first_row s.
Proof.
  intros Hd Hs. unfold Copy.write. rewrite Hd, Hs.
  rewrite send_all_spec by reflexivity.
  eexists. split; [reflexivity|]. unfold Copy.wrote. cbn.
  repeat split; assumption.
Qed.

Lemma write_row_text (s : Copy.Session) (row : list Copy.Value)
    (fields : list (option Py.bytes)) :
  Copy.direction s = Copy.IN -> Copy.state s = Copy.OPEN ->
  Copy.format s = Pq.TEXT ->
  Copy.dump_row Pq.TEXT (Copy.context (Copy.cursor s)) row = Py.Ok fields ->
  exists s', Copy.write_row s row = (s', None)
             /\ Copy.wrote s s' (Copy.text_row fields)
             /\ Copy.first_row s' = Copy.first_row s.
Proof.
  intros Hd Hs Hf Hrow. unfold Copy.write_row.
  rewrite Hd, Hs, Hf, Hrow. now apply write_spec.
Qed.

Lemma write_row_binary (s : Copy.Session) (row : list Copy.Value)
    (fields : list (option Py.bytes)) :
  Copy.direction s = Copy.IN -> Copy.state s = Copy.OPEN ->
  Copy.format s = Pq.BINARY ->
  Copy.dump_row Pq.BINARY (Copy.context (Copy.cursor s)) row = Py.Ok fields ->
  exists s', Copy.write_row s row = (s', None)
             /\ Copy.wrote s s'
                  (if Copy.first_row s
                   then Copy.binary_header ++ Copy.binary_row fields
                   else Copy.binary_row fields)
             /\ Copy.first_row s' = false.
Proof.
  intros Hd Hs Hf Hrow. unfold Copy.write_row.
  rewrite Hd, Hs, Hf, Hrow.
  destruct (write_spec (Copy.row_written s)
              (if Copy.first_row s
               then Copy.binary_header ++ Copy.binary_row fields
               else Copy.binary_row fields) Hd Hs) as [s' [Hw [Hwr Hfr]]].
  exists s'. split; [exact Hw|]. split; [exact Hwr | exact Hfr].
Qed.

Lemma deliver_wire (r : Copy.CommandResult) (t : Copy.Transport) :
  Copy.wire (snd (Copy.deliver r t)) = Copy.wire t.
Proof. unfold Copy.deliver. now destruct (Copy.errorInfo r). Qed.

Lemma getResult_wire (t : Copy.Transport) :
  Copy.wire (snd (Copy.getResult t)) = Copy.wire t.
Proof.
  unfold Copy.getResult. destruct (Copy.copy_fail t); apply deliver_wire.
Qed.

Lemma complete_wire (s : Copy.Session) (t : Copy.Transport) :
  Copy.wire (Copy.transport (Copy.cursor (fst (Copy.complete s t))))
    = Copy.wire t.
Proof.
  unfold Copy.complete. pose proof (getResult_wire t) as H.
  destruct (Copy.getResult t) as [r t']. cbn [snd] in H.
  now destruct (Copy.errorInfo r).
Qed.

(** Leaving the block without an error adds the trailer to the wire when
    rows were framed in BINARY format, and nothing otherwise. *)
Lemma finish_wire (s : Copy.Session) :
  Copy.direction s = Copy.IN -> Copy.state s = Copy.OPEN ->
  Copy.wire (Copy.transport (Copy.cursor (fst (Copy.finish s))))
  = Copy.wire (Copy.transport (Copy.cursor s))
    ++ match Copy.format s, Copy.first_row s with
       | Pq.BINARY, false => Copy.binary_trailer
       | _, _ => []
       end.
Proof.
  intros Hd Hs. unfold Copy.finish. rewrite Hs, Hd, complete_wire.
  destruct (Copy.format s), (Copy.first_row s);
    cbn [Copy.sendCopyDone Copy.wire]; rewrite ?app_nil_r; try reflexivity.
  now rewrite send_all_spec.
Qed.

Lemma dump_sample_records (fmt : Pq.Format) (ctx : Text.AdaptContext) :
  Py.lookup (Text.sd_encoding (Text._StringDumper_init ctx)) <> None ->
  Copy.dump_row fmt ctx [Copy.Int4 10; Copy.Int4 20;
                         Copy.Str (Py.of_string "hello")]
    = Py.Ok [Some (Copy.Int4_dump fmt 10); Some (Copy.Int4_dump fmt 20);
             Some (list_byte_of_string "hello")]
  /\ Copy.dump_row fmt ctx [Copy.Int4 40; Copy.PyNone;
                            Copy.Str (Py.of_string "world")]
     = Py.Ok [Some (Copy.Int4_dump fmt 40); None;
              Some (list_byte_of_string "world")].
Proof.
  intro Hl. cbn [Copy.dump_row Copy.dump_value].
  unfold Text.StringDumper_dump, Text.StringBinaryDumper_dump, Py.encode.
  destruct (Py.lookup _) as [codec|]; [|now elim Hl].
  destruct fmt, codec; split; reflexivity.
Qed.

(** C6. Writing the two sample records with [write_row] puts on the wire,
    in TEXT format, exactly [sample_text] (fields separated by a tab, NULL
    written as backslash-N, one line break after each row) and, in BINARY
    format, exactly [sample_binary]: the file header, one frame per row
    with the field count 3 and each field behind its 4-octet big-endian
    length, -1 standing for NULL, and the trailer, a field count of -1. *)
Theorem C6_sample_records_on_the_wire (c : Copy.Cursor) :
  Copy.status (Copy.reply (Copy.transport c)) = Copy.COPY_IN ->
  Py.lookup (Text.sd_encoding (Text._StringDumper_init (Copy.context c)))
    <> None ->
  Copy.wire (Copy.transport
               (fst (Copy.with_copy Pq.TEXT c Sample.records_block)))
    = Copy.wire (Copy.transport c) ++ Sample.sample_text
  /\ Copy.wire (Copy.transport
                  (fst (Copy.with_copy Pq.BINARY c Sample.records_block)))
     = Copy.wire (Copy.transport c) ++ Sample.sample_binary
  /\ Sample.sample_text
     = list_byte_of_string "10" ++ [Copy.TAB] ++ list_byte_of_string "20"
       ++ [Copy.TAB] ++ list_byte_of_string "hello" ++ [Copy.LF]
       ++ list_byte_of_string "40" ++ [Copy.TAB]
       ++ list_byte_of_string "\N" ++ [Copy.TAB]
       ++ list_byte_of_string "world" ++ [Copy.LF]
  /\ Sample.sample_binary
     = (list_byte_of_string "PGCOPY" ++ [x0a; xff; x0d; x0a; x00]
        ++ [x00; x00; x00; x00] ++ [x00; x00; x00; x00])
       ++ ([x00; x03]
           ++ [x00; x00; x00; x04] ++ [x00; x00; x00; x0a]
           ++ [x00; x00; x00; x04] ++ [x00; x00; x00; x14]
           ++ [x00; x00; x00; x05] ++ list_byte_of_string "hello")
       ++ ([x00; x03]
           ++ [x00; x00; x00; x04] ++ [x00; x00; x00; x28]
           ++ [xff; xff; xff; xff]
           ++ [x00; x00; x00; x05] ++ list_byte_of_string "world")
       ++ [xff; xff].
Proof.
  intros Hstatus Hl.
  destruct (dump_sample_records Pq.TEXT (Copy.context c) Hl) as [Ht1 Ht2].
  destruct (dump_sample_records Pq.BINARY (Copy.context c) Hl) as [Hb1 Hb2].
  split; [|split; [|split; reflexivity]].
  - unfold Copy.with_copy, Copy.Cursor_copy. rewrite Hstatus.
    set (s0 := {| Copy.direction := Copy.IN; Copy.format := Pq.TEXT;
                  Copy.state := Copy.OPEN; Copy.first_row := true;
                  Copy.cursor := _ |}).
    unfold Sample.records_block, Sample.sample_records.
    cbn [map Copy.sequence].
    destruct (write_row_text s0 _ _ eq_refl eq_refl eq_refl Ht1)
      as [s1 [-> [W1 F1]]].
    destruct W1 as [D1 [S1 [Fm1 [C1 [_ [_ [_ Wr1]]]]]]].
    assert (Ht2' : Copy.dump_row Pq.TEXT (Copy.context (Copy.cursor s1)) _
                   = Py.Ok _) by (rewrite C1; exact Ht2).
    destruct (write_row_text s1 _ _ D1 S1 Fm1 Ht2') as [s2 [-> [W2 F2]]].
    destruct W2 as [D2 [S2 [Fm2 [C2 [_ [_ [_ Wr2]]]]]]].
    rewrite D1 in D2. rewrite S1 in S2.
    pose proof (finish_wire s2 D2 S2) as Hfin.
    destruct (Copy.finish s2) as [s3 r]. cbn [fst] in *.
    rewrite Hfin, Fm2, Fm1, Wr2, Wr1. cbn [Copy.format s0].
    rewrite app_nil_r, <- app_assoc. reflexivity.
  - unfold Copy.with_copy, Copy.Cursor_copy. rewrite Hstatus.
    set (s0 := {| Copy.direction := Copy.IN; Copy.format := Pq.BINARY;
                  Copy.state := Copy.OPEN; Copy.first_row := true;
                  Copy.cursor := _ |}).
    unfold Sample.records_block, Sample.sample_records.
    cbn [map Copy.sequence].
    destruct (write_row_binary s0 _ _ eq_refl eq_refl eq_refl Hb1)
      as [s1 [-> [W1 F1]]].
    destruct W1 as [D1 [S1 [Fm1 [C1 [_ [_ [_ Wr1]]]]]]].
    assert (Hb2' : Copy.dump_row Pq.BINARY (Copy.context (Copy.cursor s1)) _
                   = Py.Ok _) by (rewrite C1; exact Hb2).
    destruct (write_row_binary s1 _ _ D1 S1 Fm1 Hb2') as [s2 [-> [W2 F2]]].
    destruct W2 as [D2 [S2 [Fm2 [C2 [_ [_ [_ Wr2]]]]]]].
    rewrite D1 in D2. rewrite S1 in S2.
    pose proof (finish_wire s2 D2 S2) as Hfin.
    destruct (Copy.finish s2) as [s3 r]. cbn [fst] in *.
    rewrite Hfin, Fm2, Fm1, F2, Wr2, F1, Wr1. cbn [Copy.format Copy.first_row s0].
    rewrite <- !app_assoc. reflexivity.
Qed.

(** C6, the run of [test_copy_in_records] on a UTF-8 connection. *)
Lemma C6_witness :
  Copy.wire (Copy.transport
               (fst (Copy.with_copy Pq.TEXT
                       (Sample.cursor_on (Sample.copy_in_transport 2) 0)
                       Sample.records_block)))
    = Sample.sample_text
  /\ Copy.wire (Copy.transport
                  (fst (Copy.with_copy Pq.BINARY
                          (Sample.cursor_on (Sample.copy_in_transport 2) 0)
                          Sample.records_block)))
     = Sample.sample_binary.
Proof.
  destruct (C6_sample_records_on_the_wire
              (Sample.cursor_on (Sample.copy_in_transport 2) 0)
              eq_refl ltac:(discriminate)) as [Ht [Hb _]].
  split; [exact Ht | exact Hb].
Defined.

(** While the block of an opened session is still open when it ends:
    the row count is the server's count on success and stays as it was
    when the server reports an error. *)
Lemma rowcount_when_block_ends_open
    (fmt : Pq.Format) (c c0 : Copy.Cursor)
    (body : Copy.Session -> Copy.Session * option Copy.exn)
    (s0 s1 : Copy.Session) :
  Copy.Cursor_copy fmt c = (c0, Copy.Return s0) ->
  body s0 = (s1, None) ->
  Copy.state s1 = Copy.OPEN ->
  Copy.copy_fail (Copy.transport (Copy.cursor s1)) = None ->
  let r := Copy.completion (Copy.transport (Copy.cursor s1)) in
  Copy.state s0 = Copy.OPEN
  /\ Copy.rowcount (Copy.cursor s0) = Copy.NOT_APPLICABLE
  /\ snd (Copy.with_copy fmt c body)
     = option_map Copy.ServerError (Copy.errorInfo r)
  /\ Copy.rowcount (fst (Copy.with_copy fmt c body))
     = match Copy.errorInfo r with
       | None => Copy.rowsAffected r
       | Some _ => Copy.rowcount (Copy.cursor s1)
       end.
Proof.
  intros Hopen Hbody Hs Hf r.
  assert (H0 : Copy.state s0 = Copy.OPEN
               /\ Copy.rowcount (Copy.cursor s0) = Copy.NOT_APPLICABLE).
  { unfold Copy.Cursor_copy in Hopen.
    destruct (Copy.status (Copy.reply (Copy.transport c)));
      inversion Hopen; subst; now split. }
  destruct H0 as [Hs0 Hr0]. split; [exact Hs0|]. split; [exact Hr0|].
  unfold Copy.with_copy. rewrite Hopen, Hbody.
  unfold Copy.finish. rewrite Hs.
  assert (Hc : forall t,
             Copy.copy_fail t = None ->
             Copy.completion t = r ->
             snd (Copy.complete s1 t)
               = option_map Copy.ServerError (Copy.errorInfo r)
             /\ Copy.rowcount (Copy.cursor (fst (Copy.complete s1 t)))
                = match Copy.errorInfo r with
                  | None => Copy.rowsAffected r
                  | Some _ => Copy.rowcount (Copy.cursor s1)
                  end).
  { intros t Ht Hr. unfold Copy.complete, Copy.getResult, Copy.deliver.
    rewrite Ht, Hr. clearbody r.
    destruct (Copy.errorInfo r) eqn:E; cbn; rewrite ?E; now split. }
  destruct (Copy.direction s1).
  - match goal with
    | |- context [Copy.complete s1 ?t] => destruct (Hc t) as [H1 H2]
    end.
    + destruct (Copy.format s1), (Copy.first_row s1);
        rewrite ?send_all_spec by reflexivity; exact Hf.
    + destruct (Copy.format s1), (Copy.first_row s1);
        rewrite ?send_all_spec by reflexivity; reflexivity.
    + destruct (Copy.complete s1 _) as [s2 r2]. now split.
  - destruct (Hc (Copy.transport (Copy.cursor s1)) Hf eq_refl) as [H1 H2].
    destruct (Copy.complete s1 _) as [s2 r2]. now split.
Qed.

(** Iterating an open COPY-OUT session to the end finalizes it on the
    server's result: the row count is the server's count, or the server's
    error leaves the iteration and the row count stays as it was. *)
Lemma iterate_to_the_end (pending : list Copy.Chunk) :
  forall s, Copy.incoming (Copy.transport (Copy.cursor s)) = pending ->
    Copy.direction s = Copy.OUT -> Copy.state s = Copy.OPEN ->
    Copy.copy_fail (Copy.transport (Copy.cursor s)) = None ->
    let r := Copy.completion (Copy.transport (Copy.cursor s)) in
    let '(s', result) := Copy.iterate (List.length pending) s in
    Copy.state s' = Copy.FINALIZED
    /\ match Copy.errorInfo r with
       | None => Copy.rowcount (Copy.cursor s') = Copy.rowsAffected r
                 /\ exists blocks, result = Copy.Return blocks
       | Some info => Copy.rowcount (Copy.cursor s')
                      = Copy.rowcount (Copy.cursor s)
                      /\ result = Copy.Raised (Copy.ServerError info)
       end.
Proof.
  induction pending as [|c rest IH]; intros s Hin Hd Hs Hf r.
  - cbn [List.length Copy.iterate].
    unfold Copy.read, Copy.receive, Copy.complete, Copy.getResult,
      Copy.deliver.
    rewrite Hd, Hs, Hin, Hf. fold r.
    destruct (Copy.errorInfo r) eqn:E; cbn; rewrite ?E; cbn.
    + now repeat split.
    + split; [reflexivity|]. split; [reflexivity|]. now exists [].
  - cbn [List.length Copy.iterate].
    assert (Hr : Copy.read s
                 = (Copy.with_transport s
                      (snd (Copy.receive (Copy.transport (Copy.cursor s)))),
                    Copy.Return (Copy.chunk_bytes c))).
    { unfold Copy.read, Copy.receive. now rewrite Hd, Hs, Hin. }
    rewrite Hr. cbn [Copy.chunk_bytes].
    set (s1 := Copy.with_transport s
                 (snd (Copy.receive (Copy.transport (Copy.cursor s))))) in *.
    assert (H1 : Copy.incoming (Copy.transport (Copy.cursor s1)) = rest)
      by (unfold s1, Copy.receive; now rewrite Hin).
    assert (H4 : Copy.copy_fail (Copy.transport (Copy.cursor s1)) = None)
      by (unfold s1, Copy.receive; now rewrite Hin).
    assert (H5 : Copy.completion (Copy.transport (Copy.cursor s1)) = r)
      by (unfold s1, Copy.receive; now rewrite Hin).
    assert (H6 : Copy.rowcount (Copy.cursor s1) = Copy.rowcount (Copy.cursor s))
      by reflexivity.
    specialize (IH s1 H1 Hd Hs H4). cbv zeta in IH. rewrite H5, H6 in IH.
    destruct (Copy.iterate (List.length rest) s1) as [s' [blocks|e]];
      destruct IH as [Hfin Hres]; (split; [exact Hfin|]);
      destruct (Copy.errorInfo r); destruct Hres as [Hrc Hout];
      try discriminate; try (destruct Hout; discriminate).
    + split; [exact Hrc|]. eexists; reflexivity.
    + now split.
Qed.

(** C7. A COPY request the server does not answer with a COPY status is
    rejected: no session is opened and the row count is the reserved -1,
    whatever it was before.  A session that is opened starts from -1.
    When a block ends without an error on a session that is still open
    (a COPY-IN, or a COPY-OUT not read to the end) and the server reports
    success, the row count becomes the count the server reports; when the
    server reports an error instead, that error is raised and the row
    count stays as it was.  When the block reads a COPY-OUT session to
    the end, the session is finalized by the last [read]: on success the
    row count is the server's count, and on a server error that error is
    raised and the row count stays -1.  Leaving the block of a session
    that is already finalized changes nothing more. *)
Theorem C7_rowcount_after_copy
    (fmt : Pq.Format) (c : Copy.Cursor)
    (body : Copy.Session -> Copy.Session * option Copy.exn) :
  Copy.NOT_APPLICABLE = (-1)%Z
  /\ (Copy.status (Copy.reply (Copy.transport c)) <> Copy.COPY_IN ->
      Copy.status (Copy.reply (Copy.transport c)) <> Copy.COPY_OUT ->
      exists c' e,
        Copy.Cursor_copy fmt c = (c', Copy.Raised e)
        /\ Copy.with_copy fmt c body = (c', Some e)
        /\ Copy.rowcount c' = Copy.NOT_APPLICABLE)
  /\ (forall c0 s0 s1,
        Copy.Cursor_copy fmt c = (c0, Copy.Return s0) ->
        body s0 = (s1, None) ->
        Copy.state s1 = Copy.OPEN ->
        Copy.copy_fail (Copy.transport (Copy.cursor s1)) = None ->
        let r := Copy.completion (Copy.transport (Copy.cursor s1)) in
        Copy.state s0 = Copy.OPEN
        /\ Copy.rowcount (Copy.cursor s0) = Copy.NOT_APPLICABLE
        /\ snd (Copy.with_copy fmt c body)
           = option_map Copy.ServerError (Copy.errorInfo r)
        /\ Copy.rowcount (fst (Copy.with_copy fmt c body))
           = match Copy.errorInfo r with
             | None => Copy.rowsAffected r
             | Some _ => Copy.rowcount (Copy.cursor s1)
             end)
  /\ (Copy.status (Copy.reply (Copy.transport c)) = Copy.COPY_OUT ->
      Copy.copy_fail (Copy.transport c) = None ->
      let r := Copy.completion (Copy.transport c) in
      snd (Copy.with_copy fmt c Sample.drain_block)
        = option_map Copy.ServerError (Copy.errorInfo r)
      /\ Copy.rowcount (fst (Copy.with_copy fmt c Sample.drain_block))
         = match Copy.errorInfo r with
           | None => Copy.rowsAffected r
           | Some _ => Copy.NOT_APPLICABLE
           end)
  /\ (forall c0 s0 s1,
        Copy.Cursor_copy fmt c = (c0, Copy.Return s0) ->
        body s0 = (s1, None) ->
        Copy.state s1 = Copy.FINALIZED ->
        Copy.with_copy fmt c body = (Copy.cursor s1, None)).
Proof.
  split; [reflexivity|]. split; [|split; [|split]].
  - intros Hin Hout. unfold Copy.with_copy, Copy.Cursor_copy.
    destruct (Copy.status (Copy.reply (Copy.transport c)));
      try contradiction; eexists; eexists; repeat split.
  - intros c0 s0 s1. apply rowcount_when_block_ends_open.
  - intros Hout Hf r. unfold Copy.with_copy, Copy.Cursor_copy.
    rewrite Hout.
    set (s0 := {| Copy.direction := Copy.OUT; Copy.format := fmt;
                  Copy.state := Copy.OPEN; Copy.first_row := true;
                  Copy.cursor := _ |}).
    pose proof (iterate_to_the_end _ s0 eq_refl eq_refl eq_refl Hf) as H.
    cbv zeta in H. unfold Sample.drain_block, Copy.to_list.
    destruct (Copy.iterate _ s0) as [s' result].
    destruct H as [Hfin Hres]. change (Copy.completion _) with r in Hres.
    destruct (Copy.errorInfo r).
    + destruct Hres as [Hrc ->]. unfold Copy.finish_error. rewrite Hfin.
      split; [reflexivity | exact Hrc].
    + destruct Hres as [Hrc [blocks ->]]. unfold Copy.finish. rewrite Hfin.
      split; [reflexivity | exact Hrc].
  - intros c0 s0 s1 Hopen Hbody Hs. unfold Copy.with_copy.
    rewrite Hopen, Hbody. unfold Copy.finish. now rewrite Hs.
Qed.

(** C7, the runs of [test_copy_rowcount]: three rows loaded; a table of
    five rows read to the end; a statement the server rejects, on a cursor
    that showed 5. *)
Lemma C7_witness :
  Copy.rowcount
    (fst (Copy.with_copy Pq.TEXT
            (Sample.cursor_on (Sample.copy_in_transport 3) 0)
            Sample.records_block)) = 3%Z
  /\ Copy.rowcount
       (fst (Copy.with_copy Pq.TEXT
               (Sample.cursor_on
                  (Sample.copy_out_transport Sample.text_blocks 5) 2)
               Sample.drain_block)) = 5%Z
  /\ exists c' e,
       Copy.with_copy Pq.TEXT
         (Sample.cursor_on
            (Sample.rejecting_transport
               {| Copy.sqlstate := Copy.SyntaxError;
                  Copy.message := "syntax error" |}) 5)
         Sample.records_block = (c', Some e)
       /\ Copy.rowcount c' = (-1)%Z.
Proof.
  destruct (C7_rowcount_after_copy Pq.TEXT
              (Sample.cursor_on (Sample.copy_in_transport 3) 0)
              Sample.records_block) as [_ [_ [Hok _]]].
  destruct (Hok _ _ _ eq_refl eq_refl eq_refl eq_refl) as [_ [_ [_ Hcount]]].
  split; [exact Hcount|].
  destruct (C7_rowcount_after_copy Pq.TEXT
              (Sample.cursor_on
                 (Sample.copy_out_transport Sample.text_blocks 5) 2)
              Sample.records_block) as [_ [_ [_ [Hout _]]]].
  destruct (Hout eq_refl eq_refl) as [_ Hfive].
  split; [exact Hfive|].
  destruct (C7_rowcount_after_copy Pq.TEXT
              (Sample.cursor_on
                 (Sample.rejecting_transport
                    {| Copy.sqlstate := Copy.SyntaxError;
                       Copy.message := "syntax error" |}) 5)
              Sample.records_block) as [_ [Hrej _]].
  destruct (Hrej ltac:(discriminate) ltac:(discriminate))
    as [c' [e [_ [Hw Hr]]]].
  exists c', e. split; [exact Hw | exact Hr].
Defined.

(** * Further properties of the adapters *)

(** ** When encoding fails, and what it keeps *)

Lemma utf8_encode_cp_encodable (c : N) (bs : Py.bytes) :
  Py.utf8_encode_cp c = Py.Ok bs -> Py.encodable_cp Py.Utf8 c = true.
Proof.
  unfold Py.utf8_encode_cp, Py.encodable_cp. intro H.
  destruct ((0xD800 <=? c) && (c <=? 0xDFFF))%bool eqn:B.
  - exfalso. bool_hyps.
    replace (c <? 0x80) with false in H by (symmetry; apply N.ltb_ge; lia).
    replace (c <? 0x800) with false in H by (symmetry; apply N.ltb_ge; lia).
    replace (c <? 0x10000) with true in H by (symmetry; apply N.ltb_lt; lia).
    discriminate.
  - destruct (c <? 0x110000) eqn:A; [reflexivity|]. exfalso. bool_hyps.
    replace (c <? 0x80) with false in H by (symmetry; apply N.ltb_ge; lia).
    replace (c <? 0x800) with false in H by (symmetry; apply N.ltb_ge; lia).
    replace (c <? 0x10000) with false in H by (symmetry; apply N.ltb_ge; lia).
    discriminate.
Qed.

Lemma utf8_encode_cp_error (c : N) (e : Py.exn) :
  Py.utf8_encode_cp c = Py.Raise e -> e = Py.UnicodeEncodeError.
Proof.
  unfold Py.utf8_encode_cp.
  repeat match goal with
  | |- (if ?b then _ else _) = _ -> _ => destruct b
  end; try discriminate; now intros [= <-].
Qed.

(** Encoding succeeds exactly on the strings of code points the codec
    covers, and its only error is [UnicodeEncodeError]. *)
Lemma codec_encode_outcome (c : Py.codec) (s : Py.str) :
  if Py.encodable c s
  then exists b, Py.codec_encode c s = Py.Ok b
  else Py.codec_encode c s = Py.Raise Py.UnicodeEncodeError.
Proof.
  destruct (Py.encodable c s) eqn:He; [now apply codec_encodable|].
  revert He. unfold Py.encodable.
  induction s as [|p s IH]; cbn [forallb]; [discriminate|].
  intro H. destruct c; cbn [Py.codec_encode Py.utf8_encode Py.single_encode]
                         in *; [|cbn [Py.encodable_cp] in *..].
  - destruct (Py.utf8_encode_cp p) as [b|e] eqn:Ep.
    + rewrite (utf8_encode_cp_encodable p b Ep) in H. cbn [andb] in H.
      cbn [Py.bind]. now rewrite (IH H).
    + cbn [Py.bind]. now rewrite (utf8_encode_cp_error p e Ep).
  - destruct (p <? 256); [|reflexivity]. cbn [andb] in H.
    now rewrite (IH H).
  - destruct (p <? 128); [|reflexivity]. cbn [andb] in H.
    now rewrite (IH H).
Qed.



Lemma octet_zero (n : N) : n < 256 -> Py.octet n = x00 -> n = 0.
Proof.
  intros Hn H. rewrite <- (to_N_octet n Hn), H. reflexivity.
Qed.

Lemma utf8_encode_cp_nul (c : N) (bs : Py.bytes) :
  Py.utf8_encode_cp c = Py.Ok bs -> (In x00 bs <-> c = 0).
Proof.
  unfold Py.utf8_encode_cp.
  destruct (c <? 0x80) eqn:H1.
  { intros E; apply Ok_inj in E; subst bs. bool_hyps. split.
    - intros [H|[]]. apply octet_zero; [lia | congruence].
    - intros ->. now left. }
  assert (Hhigh : forall n, 0x80 <= n < 256 -> Py.octet n <> x00).
  { intros n Hn E. apply octet_zero in E; lia. }
  bool_hyps.
  destruct (c <? 0x800) eqn:H2;
    [|destruct (c <? 0x10000) eqn:H3;
      [destruct ((0xD800 <=? c) && (c <=? 0xDFFF))%bool; [discriminate|]
      |destruct (c <? 0x110000) eqn:H5; [|discriminate]]];
    intros E; apply Ok_inj in E; subst bs; bool_hyps;
    (split; [|intros ->; lia]);
    cbn [In]; intros H;
    repeat (destruct H as [H|H];
            [exfalso; revert H; apply Hhigh; divmod|]);
    destruct H.
Qed.

(** The encoding of a string holds a zero octet exactly when the string
    holds the code point 0. *)
Lemma codec_encode_nul (c : Py.codec) (s : Py.str) :
  forall b, Py.codec_encode c s = Py.Ok b -> (In x00 b <-> In 0 s).
Proof.
  assert (Hsingle : forall limit, limit <= 256 -> forall s b,
            Py.single_encode limit s = Py.Ok b -> (In x00 b <-> In 0 s)).
  { intros limit Hl. induction s0 as [|p s0 IH]; intros b;
      cbn [Py.single_encode].
    - intros E; apply Ok_inj in E; now subst b.
    - destruct (p <? limit) eqn:Hp; [|discriminate]. bool_hyps.
      destruct (Py.single_encode limit s0) as [b'|]; [|discriminate].
      cbn [Py.bind]. intros E; apply Ok_inj in E; subst b.
      specialize (IH b' eq_refl). cbn [In]. rewrite IH. split.
      + intros [H|H]; [left | now right].
        apply octet_zero in H; [exact H | lia].
      + intros [H|H]; [left; now subst p | now right]. }
  destruct c; cbn [Py.codec_encode]; [|now apply Hsingle..].
  induction s as [|p s IH]; intros b; cbn [Py.utf8_encode].
  - intros E; apply Ok_inj in E; now subst b.
  - destruct (Py.utf8_encode_cp p) as [bp|] eqn:Ep; [|discriminate].
    cbn [Py.bind]. destruct (Py.utf8_encode s) as [b'|]; [|discriminate].
    cbn [Py.bind]. intros E; apply Ok_inj in E; subst b.
    specialize (IH b' eq_refl). rewrite in_app_iff, IH.
    rewrite (utf8_encode_cp_nul p bp Ep). cbn [In]. intuition congruence.
Qed.

Lemma encodings_agree (ctx : Text.AdaptContext) :
  (forall conn, ctx = Some conn ->
     Text.client_encoding conn <> "ascii"%string) ->
  Text.tl_encoding (Text.TextLoader_init ctx)
    = Text.sd_encoding (Text._StringDumper_init ctx)
  /\ Text.ul_encoding (Text.UnknownLoader_init ctx)
     = Text.sd_encoding (Text._StringDumper_init ctx).
Proof.
  intro H. destruct ctx as [conn|]; [|now split].
  specialize (H conn eq_refl).
  cbn [Text.TextLoader_init Text._StringDumper_init Text.UnknownLoader_init].
  destruct (String.eqb_spec (Text.client_encoding conn) "ascii");
    [contradiction|]. now split.
Qed.

(** X1. TEXT-format round trip on the charsets covered here (UTF-8,
    Latin-1, ASCII): off the ASCII-only mode, a string without NUL whose
    code points the charset covers is dumped by [StringDumper], and both
    [TextLoader] and [UnknownLoader] load the string back from the
    bytes. *)
Theorem X1_text_dump_then_load
    (ctx : Text.AdaptContext) (s : Py.str) (c : Py.codec) :
  (forall conn, ctx = Some conn ->
     Text.client_encoding conn <> "ascii"%string) ->
  existsb (N.eqb Text.NUL) s = false ->
  Py.lookup (Text.sd_encoding (Text._StringDumper_init ctx)) = Some c ->
  Py.encodable c s = true ->
  exists b,
    Text.StringDumper_dump (Text._StringDumper_init ctx) s = Py.Ok b
    /\ Text.TextLoader_load (Text.TextLoader_init ctx) b = Py.Ok (Py.VStr s)
    /\ Text.UnknownLoader_load (Text.UnknownLoader_init ctx) b
       = Py.Ok (Py.VStr s).
Proof.
  intros Hctx Hnul Hc Hs.
  destruct (encodings_agree ctx Hctx) as [Htl Hul].
  destruct (codec_encodable c s Hs) as [b Hb]. exists b.
  unfold Text.StringDumper_dump, Text.TextLoader_load,
    Text.UnknownLoader_load, Py.encode, Py.decode.
  rewrite Hnul, Htl, Hul, Hc, (lookup_not_empty _ c Hc),
    (codec_roundtrip c s b Hb).
  repeat split; assumption.
Qed.

(** X1, an instance: the text "h€" on a UTF-8 connection. *)
Lemma X1_witness :
  exists b,
    Text.StringDumper_dump
      (Text._StringDumper_init (Some Sample.utf8_connection))
      [104; Sample.eur] = Py.Ok b
    /\ Text.TextLoader_load
         (Text.TextLoader_init (Some Sample.utf8_connection)) b
       = Py.Ok (Py.VStr [104; Sample.eur])
    /\ Text.UnknownLoader_load
         (Text.UnknownLoader_init (Some Sample.utf8_connection)) b
       = Py.Ok (Py.VStr [104; Sample.eur]).
Proof.
  apply (X1_text_dump_then_load (Some Sample.utf8_connection)
           [104; Sample.eur] Py.Utf8);
    [intros conn [= <-]; discriminate | reflexivity..].
Defined.

(** X2. The outcome of [StringDumper.dump], in the order the code checks:
    a NUL in the string raises [DataError] whatever the encoding is; else,
    when the encoding is one of the charsets covered here (UTF-8,
    Latin-1, ASCII), a code point outside the charset raises
    [UnicodeEncodeError] and otherwise the encoded bytes are returned.
    [StringBinaryDumper.dump] is the same without the first check. *)
Theorem X2_dump_outcomes (ctx : Text.AdaptContext) (s : Py.str) :
  let self := Text._StringDumper_init ctx in
  (existsb (N.eqb Text.NUL) s = true ->
   Text.StringDumper_dump self s = Py.Raise (Py.DataError Text.nul_message))
  /\ forall c,
       Py.lookup (Text.sd_encoding self) = Some c ->
       let encoded r :=
         if Py.encodable c s
         then exists b, r = Py.Ok b /\ Py.codec_encode c s = Py.Ok b
         else r = Py.Raise Py.UnicodeEncodeError in
       encoded (Text.StringBinaryDumper_dump self s)
       /\ (existsb (N.eqb Text.NUL) s = false ->
           encoded (Text.StringDumper_dump self s)).
Proof.
  intros self. split.
  - intro Hn. unfold Text.StringDumper_dump. now rewrite Hn.
  - intros c Hc encoded.
    assert (H : encoded (Py.encode (Text.sd_encoding self) s)).
    { subst encoded. cbv beta. unfold Py.encode. rewrite Hc.
      pose proof (codec_encode_outcome c s) as Ho.
      destruct (Py.encodable c s); [|exact Ho].
      destruct Ho as [b Hb]. exists b. now split. }
    split; [exact H|]. intro Hn. unfold Text.StringDumper_dump.
    now rewrite Hn.
Qed.

(** X2, an instance: "é€" on a Latin-1 connection. *)
Lemma X2_witness :
  Text.StringBinaryDumper_dump
    (Text._StringDumper_init (Some Sample.latin1_connection))
    [233; Sample.eur] = Py.Raise Py.UnicodeEncodeError
  /\ Text.StringDumper_dump
       (Text._StringDumper_init (Some Sample.latin1_connection))
       [233; Sample.eur] = Py.Raise Py.UnicodeEncodeError.
Proof.
  destruct (proj2 (X2_dump_outcomes (Some Sample.latin1_connection)
                     [233; Sample.eur]) Py.Latin1 eq_refl) as [Hb Ht].
  split; [exact Hb | exact (Ht eq_refl)].
Defined.

(** X3. On the charsets covered here (UTF-8, Latin-1, ASCII), what
    [StringDumper.dump] returns never holds a zero octet, and what
    [StringBinaryDumper.dump] returns holds one exactly when the string
    holds a NUL. *)
Theorem X3_zero_octets
    (ctx : Text.AdaptContext) (c : Py.codec) (s : Py.str) (b : Py.bytes) :
  Py.lookup (Text.sd_encoding (Text._StringDumper_init ctx)) = Some c ->
  (Text.StringDumper_dump (Text._StringDumper_init ctx) s = Py.Ok b ->
   ~ In x00 b)
  /\ (Text.StringBinaryDumper_dump (Text._StringDumper_init ctx) s = Py.Ok b ->
      (In x00 b <-> In Text.NUL s)).
Proof.
  intro Hc.
  assert (Hbin : Text.StringBinaryDumper_dump (Text._StringDumper_init ctx) s
                 = Py.Ok b -> (In x00 b <-> In Text.NUL s)).
  { unfold Text.StringBinaryDumper_dump, Py.encode. rewrite Hc.
    apply codec_encode_nul. }
  split; [|exact Hbin].
  unfold Text.StringDumper_dump.
  destruct (existsb (N.eqb Text.NUL) s) eqn:Hn; [discriminate|].
  intros Hd Hin. apply Hbin in Hin; [|exact Hd].
  apply existsb_NUL in Hin. congruence.
Qed.

(** X3, an instance: on a Latin-1 connection the bytes of "é" hold no
    zero octet. *)
Lemma X3_witness : ~ In x00 [xe9].
Proof.
  exact (proj1 (X3_zero_octets (Some Sample.latin1_connection) Py.Latin1
                  [233] [xe9] eq_refl) eq_refl).
Defined.

(** ** The ASCII-only mode, seen from the strict loader *)

Lemma utf8_encode_ascii (s : Py.str) :
  forallb (fun p => p <? 128) s = true ->
  Py.utf8_encode s = Py.single_encode 128 s.
Proof.
  induction s as [|p s IH]; [reflexivity|]. cbn [forallb].
  intro H. apply andb_prop in H as [Hp Hs].
  cbn [Py.utf8_encode Py.single_encode]. rewrite (IH Hs), Hp.
  unfold Py.utf8_encode_cp. change 0x80 with 128. rewrite Hp.
  cbn [Py.bind]. now destruct (Py.single_encode 128 s).
Qed.

Lemma utf8_encode_cp_high (p : N) (bs : Py.bytes) :
  Py.utf8_encode_cp p = Py.Ok bs -> (p <? 128) = false ->
  existsb (fun b => 128 <=? Byte.to_N b) bs = true.
Proof.
  unfold Py.utf8_encode_cp. change 0x80 with 128. intros H Hp.
  rewrite Hp in H. bool_hyps.
  destruct (p <? 0x800) eqn:H2;
    [|destruct (p <? 0x10000) eqn:H3;
      [destruct ((0xD800 <=? p) && (p <=? 0xDFFF))%bool; [discriminate|]
      |destruct (p <? 0x110000) eqn:H5; [|discriminate]]];
    apply Ok_inj in H; subst bs; bool_hyps; cbn [existsb];
    rewrite to_N_octet by divmod;
    apply orb_true_intro; left; apply N.leb_le; divmod.
Qed.

Lemma utf8_encode_high (s : Py.str) :
  forall b, Py.utf8_encode s = Py.Ok b ->
    forallb (fun p => p <? 128) s = false ->
    existsb (fun o => 128 <=? Byte.to_N o) b = true.
Proof.
  induction s as [|p s IH]; intros b; cbn [Py.utf8_encode forallb];
    [discriminate|].
  destruct (Py.utf8_encode_cp p) as [bp|] eqn:Ep; [|discriminate].
  cbn [Py.bind]. destruct (Py.utf8_encode s) as [b'|]; [|discriminate].
  cbn [Py.bind]. intros E H; apply Ok_inj in E; subst b.
  rewrite existsb_app. apply orb_true_intro.
  destruct (p <? 128) eqn:Hp.
  - right. now apply IH.
  - left. now apply (utf8_encode_cp_high p).
Qed.

(** X4. On a connection in ASCII-only mode the dumpers write UTF-8 while
    [UnknownLoader] decodes with ASCII: the loader gives back what the
    BINARY dumper wrote when every code point of the string is below 128,
    and raises [UnicodeDecodeError] on the dumper's own output for every
    other string. *)
Theorem X4_ascii_mode_strict_loader
    (conn : Text.Connection) (s : Py.str) (b : Py.bytes) :
  Text.client_encoding conn = "ascii"%string ->
  Text.StringBinaryDumper_dump (Text._StringDumper_init (Some conn)) s
    = Py.Ok b ->
  Text.UnknownLoader_load (Text.UnknownLoader_init (Some conn)) b
    = if forallb (fun p => p <? 128) s
      then Py.Ok (Py.VStr s)
      else Py.Raise Py.UnicodeDecodeError.
Proof.
  intros Hc. unfold Text.StringBinaryDumper_dump, Text.UnknownLoader_load.
  cbn [Text._StringDumper_init Text.UnknownLoader_init Text.ul_encoding].
  rewrite Hc. cbn [String.eqb Ascii.eqb Bool.eqb negb Text.sd_encoding].
  change (Py.encode "utf-8" s) with (Py.utf8_encode s).
  change (Py.decode "ascii" b) with (Py.single_decode 128 b).
  intro Hb. destruct (forallb (fun p => p <? 128) s) eqn:Ha.
  - rewrite (utf8_encode_ascii s Ha) in Hb.
    now rewrite (single_roundtrip 128 s ltac:(lia) b Hb).
  - now rewrite (single_decode_high 128 b (utf8_encode_high s b Hb Ha)).
Qed.

(** X4, an instance: "é" written and read back on an ASCII-only
    connection. *)
Lemma X4_witness :
  Text.UnknownLoader_load (Text.UnknownLoader_init (Some Sample.ascii_connection))
    [xc3; xa9] = Py.Raise Py.UnicodeDecodeError.
Proof.
  exact (X4_ascii_mode_strict_loader Sample.ascii_connection [233] [xc3; xa9]
           eq_refl eq_refl).
Defined.

(** X5. [TextLoader] and [UnknownLoader] differ only in the degenerate
    modes: built on the same context they return the same result for
    every input, unless the connection's [client_encoding] is "ascii" or
    empty, where [TextLoader] returns the bytes and [UnknownLoader]
    attempts to decode. *)
Theorem X5_loaders_agree (ctx : Text.AdaptContext) (data : Py.bytes) :
  (forall conn, ctx = Some conn ->
     Text.client_encoding conn <> "ascii"%string
     /\ Text.client_encoding conn <> ""%string) ->
  Text.TextLoader_load (Text.TextLoader_init ctx) data
    = Text.UnknownLoader_load (Text.UnknownLoader_init ctx) data.
Proof.
  intro H. destruct ctx as [conn|]; [|reflexivity].
  destruct (H conn eq_refl) as [Ha He].
  unfold Text.TextLoader_load, Text.UnknownLoader_load, Text.truthy.
  cbn [Text.TextLoader_init Text.UnknownLoader_init Text.tl_encoding
       Text.ul_encoding].
  destruct (String.eqb_spec (Text.client_encoding conn) "ascii");
    [contradiction|]. cbn [negb].
  destruct (String.eqb_spec (Text.client_encoding conn) "");
    [contradiction|]. reflexivity.
Qed.

(** X5, an instance: an overlong UTF-8 sequence on a UTF-8 connection is
    refused by both. *)
Lemma X5_witness :
  Text.TextLoader_load (Text.TextLoader_init (Some Sample.utf8_connection))
    [xc0; x80]
  = Text.UnknownLoader_load
      (Text.UnknownLoader_init (Some Sample.utf8_connection)) [xc0; x80].
Proof.
  apply (X5_loaders_agree (Some Sample.utf8_connection) [xc0; x80]).
  intros conn [= <-]. split; discriminate.
Defined.

(** ** Loading, then dumping *)

Lemma single_encode_below (limit : N) (s : Py.str) (b : Py.bytes) :
  Py.single_encode limit s = Py.Ok b ->
  forallb (fun p => p <? limit) s = true.
Proof.
  revert b. induction s as [|p s IH]; intros b; cbn [Py.single_encode forallb];
    [reflexivity|].
  destruct (p <? limit); [|discriminate].
  destruct (Py.single_encode limit s) as [b'|]; [|discriminate].
  intros _. now rewrite (IH b' eq_refl).
Qed.

Lemma fmap_VStr_inv (m : Py.result Py.str) (s : Py.str) :
  Py.fmap Py.VStr m = Py.Ok (Py.VStr s) -> m = Py.Ok s.
Proof.
  intro H. apply fmap_Ok_inv in H as [x [-> [= ->]]]. reflexivity.
Qed.

Lemma decode_encode (enc : string) (data : Py.bytes) (s : Py.str) :
  Py.decode enc data = Py.Ok s -> Py.encode enc s = Py.Ok data.
Proof.
  unfold Py.decode, Py.encode. destruct (Py.lookup enc); [|discriminate].
  apply codec_encode_decode.
Qed.

(** X6. On the charsets covered here (UTF-8, Latin-1, ASCII): whenever
    a loader returns text, dumping that text on the same context gives
    back exactly the bytes that were loaded; this holds for [TextLoader]
    and for [UnknownLoader], the ASCII-only mode included. *)
Theorem X6_load_then_dump
    (ctx : Text.AdaptContext) (c : Py.codec) (data : Py.bytes) (s : Py.str) :
  Py.lookup (Text.ul_encoding (Text.UnknownLoader_init ctx)) = Some c ->
  (Text.TextLoader_load (Text.TextLoader_init ctx) data = Py.Ok (Py.VStr s)
   \/ Text.UnknownLoader_load (Text.UnknownLoader_init ctx) data
      = Py.Ok (Py.VStr s)) ->
  Text.StringBinaryDumper_dump (Text._StringDumper_init ctx) s = Py.Ok data.
Proof.
  intros _.
  unfold Text.StringBinaryDumper_dump, Text.TextLoader_load,
    Text.UnknownLoader_load.
  destruct ctx as [conn|];
    cbn [Text.TextLoader_init Text.UnknownLoader_init Text._StringDumper_init
         Text.tl_encoding Text.ul_encoding].
  - destruct (String.eqb_spec (Text.client_encoding conn) "ascii") as [E|E];
      cbn [negb Text.sd_encoding].
    + intros [H|H]; [discriminate H|]. rewrite E in H.
      apply fmap_VStr_inv in H.
      change (Py.decode "ascii" data) with (Py.single_decode 128 data) in H.
      apply single_encode_decode in H.
      change (Py.encode "utf-8" s) with (Py.utf8_encode s).
      now rewrite (utf8_encode_ascii s (single_encode_below 128 s data H)).
    + intros [H|H].
      * destruct (Text.truthy (Text.client_encoding conn)); [|discriminate].
        now apply decode_encode, fmap_VStr_inv.
      * now apply decode_encode, fmap_VStr_inv.
  - cbn [Text.sd_encoding]. intros [H|H].
    + cbn [Text.truthy String.eqb negb] in H.
      now apply decode_encode, fmap_VStr_inv.
    + now apply decode_encode, fmap_VStr_inv.
Qed.

(** X6, an instance: the bytes of "abc" loaded by the strict loader on an
    ASCII-only connection. *)
Lemma X6_witness :
  Text.StringBinaryDumper_dump
    (Text._StringDumper_init (Some Sample.ascii_connection)) [97; 98; 99]
    = Py.Ok [x61; x62; x63].
Proof.
  exact (X6_load_then_dump (Some Sample.ascii_connection) Py.Ascii
           [x61; x62; x63] [97; 98; 99] eq_refl (or_intror eq_refl)).
Defined.

Lemma utf8_encode_app (s1 s2 : Py.str) :
  Py.utf8_encode (s1 ++ s2)
  = Py.bind (Py.utf8_encode s1) (fun b1 =>
    Py.bind (Py.utf8_encode s2) (fun b2 => Py.Ok (b1 ++ b2))).
Proof.
  induction s1 as [|p s1 IH]; cbn [app Py.utf8_encode Py.bind].
  - now destruct (Py.utf8_encode s2).
  - rewrite IH. destruct (Py.utf8_encode_cp p) as [bp|e]; [|reflexivity].
    cbn [Py.bind]. destruct (Py.utf8_encode s1) as [b1|e]; [|reflexivity].
    cbn [Py.bind]. destruct (Py.utf8_encode s2) as [b2|e]; [|reflexivity].
    cbn [Py.bind]. now rewrite app_assoc.
Qed.

Lemma single_encode_app (limit : N) (s1 s2 : Py.str) :
  Py.single_encode limit (s1 ++ s2)
  = Py.bind (Py.single_encode limit s1) (fun b1 =>
    Py.bind (Py.single_encode limit s2) (fun b2 => Py.Ok (b1 ++ b2))).
Proof.
  induction s1 as [|p s1 IH]; cbn [app Py.single_encode Py.bind].
  - now destruct (Py.single_encode limit s2).
  - rewrite IH. destruct (p <? limit); [|reflexivity].
    destruct (Py.single_encode limit s1) as [b1|e]; [|reflexivity].
    cbn [Py.bind]. destruct (Py.single_encode limit s2) as [b2|e];
      reflexivity.
Qed.

(** X7. Dumping a concatenation on the charsets covered here (UTF-8,
    Latin-1, ASCII): [StringBinaryDumper.dump] of [s1 + s2] is the dump of
    [s1] followed by the dump of [s2], and fails as soon as one of the
    two fails. *)
Theorem X7_dump_concatenation
    (ctx : Text.AdaptContext) (c : Py.codec) (s1 s2 : Py.str) :
  Py.lookup (Text.sd_encoding (Text._StringDumper_init ctx)) = Some c ->
  let dump := Text.StringBinaryDumper_dump (Text._StringDumper_init ctx) in
  dump (s1 ++ s2)
  = Py.bind (dump s1) (fun b1 =>
    Py.bind (dump s2) (fun b2 => Py.Ok (b1 ++ b2))).
Proof.
  intros Hc dump. subst dump. unfold Text.StringBinaryDumper_dump, Py.encode.
  rewrite Hc. destruct c; cbn [Py.codec_encode];
    [apply utf8_encode_app | apply single_encode_app..].
Qed.

(** X7, an instance: "h" and "€" on a UTF-8 connection. *)
Lemma X7_witness :
  Text.StringBinaryDumper_dump
    (Text._StringDumper_init (Some Sample.utf8_connection))
    ([104] ++ [Sample.eur]) = Py.Ok ([x68] ++ [xe2; x82; xac]).
Proof.
  exact (X7_dump_concatenation (Some Sample.utf8_connection) Py.Utf8
           [104] [Sample.eur] eq_refl).
Defined.

(** ** The class-level helper, from any state *)

Lemma ByteaLoader_init_state (oid : N) (ctx : Text.AdaptContext)
    (st : Text.ClassState) :
  snd (Text.ByteaLoader_init oid ctx st)
  = match Text.cls_escaping st with
    | Some _ => st
    | None =>
        {| Text.cls_escaping :=
             Some {| Pq.esc_id := Text.allocated st; Pq.esc_conn := None |};
           Text.allocated := S (Text.allocated st) |}
    end.
Proof.
  unfold Text.ByteaLoader_init. now destruct (Text.cls_escaping st).
Qed.

(** X8. [ByteaLoader.__init__] from any state of the class: a helper that
    is already in the class attribute is never replaced and nothing is
    allocated; when the attribute is unset, the first construction
    allocates one helper, bound to no connection whatever context the
    loader is given, and the later ones leave it alone.  Every loader that
    was constructed finds a helper. *)
Theorem X8_class_helper_from_any_state
    (args : list (N * Text.AdaptContext)) (st : Text.ClassState) :
  let st' := snd (Text.construct_all args st) in
  (forall e, Text.cls_escaping st = Some e -> st' = st)
  /\ (Text.cls_escaping st = None -> args <> [] ->
      st' = {| Text.cls_escaping :=
                 Some {| Pq.esc_id := Text.allocated st;
                         Pq.esc_conn := None |};
               Text.allocated := S (Text.allocated st) |})
  /\ (Text.allocated st <= Text.allocated st' <= S (Text.allocated st))%nat
  /\ (forall self, In self (fst (Text.construct_all args st)) ->
      exists e, Text.ByteaLoader_escaping self st' = Some e).
Proof.
  intro st'. subst st'.
  assert (Hset : forall e, Text.cls_escaping st = Some e ->
                   snd (Text.construct_all args st) = st).
  { intros e He. now apply (construct_all_set args st e). }
  assert (Hunset : Text.cls_escaping st = None -> args <> [] ->
            snd (Text.construct_all args st)
            = {| Text.cls_escaping :=
                   Some {| Pq.esc_id := Text.allocated st;
                           Pq.esc_conn := None |};
                 Text.allocated := S (Text.allocated st) |}).
  { intros Hn Hargs. destruct args as [|[oid ctx] rest]; [now elim Hargs|].
    cbn [Text.construct_all].
    pose proof (ByteaLoader_init_state oid ctx st) as Hi. rewrite Hn in Hi.
    destruct (Text.ByteaLoader_init oid ctx st) as [self st1].
    cbn [snd] in Hi. subst st1.
    pose proof (construct_all_set rest
                  {| Text.cls_escaping :=
                       Some {| Pq.esc_id := Text.allocated st;
                               Pq.esc_conn := None |};
                     Text.allocated := S (Text.allocated st) |}
                  _ eq_refl) as Hr.
    destruct (Text.construct_all rest _) as [others st2]. exact Hr. }
  split; [exact Hset|]. split; [exact Hunset|]. split.
  - destruct (Text.cls_escaping st) as [e|] eqn:He.
    + rewrite (Hset e eq_refl). lia.
    + destruct args as [|a rest]; [cbn; lia|].
      rewrite (Hunset eq_refl) by discriminate. cbn. lia.
  - intros self Hin. unfold Text.ByteaLoader_escaping.
    destruct (Text.cls_escaping st) as [e|] eqn:He.
    + rewrite (Hset e eq_refl), He. now exists e.
    + destruct args as [|a rest]; [destruct Hin|].
      rewrite (Hunset eq_refl) by discriminate. eexists; reflexivity.
Qed.

(** X8, an instance: a helper installed beforehand survives two
    constructions on a connection. *)
Lemma X8_witness :
  let st := {| Text.cls_escaping :=
                 Some {| Pq.esc_id := 7; Pq.esc_conn := Some Sample.server |};
               Text.allocated := 9 |} in
  snd (Text.construct_all
         [(Pq.oid_bytea, Some Sample.utf8_connection);
          (Pq.oid_bytea, None)] st) = st.
Proof.
  intro st.
  exact (proj1 (X8_class_helper_from_any_state
                  [(Pq.oid_bytea, Some Sample.utf8_connection);
                   (Pq.oid_bytea, None)] st) _ eq_refl).
Defined.

(** ** The decorators *)


(** ** The data generator of the tests *)

(** The shape of the records: count, keys and data. *)
Lemma generator_records_shape (g : Generator.DataGenerator) :
  let n := Z.to_nat (Generator.nrecs g) in
  List.length (Generator.records g) = n
  /\ map fst (Generator.records g)
     = map (fun i => (Z.of_nat i + Generator.offset g)%Z) (seq 0 n)
  /\ NoDup (map fst (Generator.records g))
  /\ Forall (fun r => exists letter,
               In letter Generator.ascii_letters
               /\ snd r = repeat letter (Z.to_nat (Generator.srec g)))
       (Generator.records g).
Proof.
  intro n. unfold Generator.records. fold n.
  split; [now rewrite length_map, length_seq|].
  split; [now rewrite map_map|]. split.
  - rewrite map_map. cbn [fst].
    apply NoDup_map_NoDup_ForallPairs; [|apply seq_NoDup].
    intros i j _ _ H. lia.
  - apply Forall_forall. intros r Hr. apply in_map_iff in Hr as [i [<- _]].
    exists (Generator.cycle_letter i). split; [|reflexivity].
    unfold Generator.cycle_letter. apply nth_In.
    apply Nat.mod_upper_bound. discriminate.
Qed.

(** X10. [DataGenerator.records] yields [nrecs] records (none when
    [nrecs] is not positive); their keys are [offset], [offset + 1], ...
    in this order, hence pairwise distinct; the data of each record is one
    letter of [string.ascii_letters] repeated [srec] times. *)
Theorem X10_generator_records (g : Generator.DataGenerator) :
  let n := Z.to_nat (Generator.nrecs g) in
  List.length (Generator.records g) = n
  /\ map fst (Generator.records g)
     = map (fun i => (Z.of_nat i + Generator.offset g)%Z) (seq 0 n)
  /\ NoDup (map fst (Generator.records g))
  /\ Forall (fun r => exists letter,
               In letter Generator.ascii_letters
               /\ snd r = repeat letter (Z.to_nat (Generator.srec g)))
       (Generator.records g).
Proof. exact (generator_records_shape g). Qed.

Lemma blocks_loop_positive (size : Z) (fuel : nat) :
  (0 < size)%Z ->
  forall rest, (List.length rest <= fuel)%nat ->
    List.concat (Generator.blocks_loop fuel size rest) = rest
    /\ Forall (fun b => b <> []
                        /\ (Z.of_nat (List.length b) <= size)%Z)
         (Generator.blocks_loop fuel size rest).
Proof.
  intro Hsize. induction fuel as [|k IH]; intros rest Hlen.
  - destruct rest; [|cbn in Hlen; lia]. cbn.
    unfold Generator.StringIO_read.
    replace (size <? 0)%Z with false by (symmetry; apply Z.ltb_ge; lia).
    rewrite firstn_nil. now split.
  - cbn [Generator.blocks_loop]. unfold Generator.StringIO_read.
    replace (size <? 0)%Z with false by (symmetry; apply Z.ltb_ge; lia).
    destruct (firstn (Z.to_nat size) rest) as [|c block] eqn:Hf.
    + destruct rest as [|c r]; [now split|].
      destruct (Z.to_nat size) eqn:Hn; [lia | discriminate].
    + assert (Hl : (List.length (skipn (Z.to_nat size) rest) <= k)%nat).
      { rewrite length_skipn.
        assert (List.length rest <> 0)%nat
          by (destruct rest; [rewrite firstn_nil in Hf|]; easy).
        lia. }
      destruct (IH _ Hl) as [Hc Ha]. split.
      * cbn [List.concat]. rewrite Hc, <- Hf. apply firstn_skipn.
      * constructor; [|exact Ha]. split; [discriminate|].
        rewrite <- Hf, length_firstn. lia.
Qed.

Lemma blocks_loop_nil (fuel : nat) (size : Z) :
  Generator.blocks_loop fuel size [] = [].
Proof.
  destruct fuel; cbn [Generator.blocks_loop]; unfold Generator.StringIO_read;
    destruct (size <? 0)%Z; rewrite ?firstn_nil; reflexivity.
Qed.

(** The blocks, for each sign of [block_size]. *)
Lemma generator_blocks_shape (g : Generator.DataGenerator) :
  ((0 < Generator.block_size g)%Z ->
   List.concat (Generator.blocks g) = Generator.file g
   /\ Forall (fun b => b <> []
                       /\ (Z.of_nat (List.length b)
                           <= Generator.block_size g)%Z)
        (Generator.blocks g))
  /\ ((Generator.block_size g < 0)%Z ->
      Generator.blocks g
      = match Generator.file g with
        | [] => []
        | _ :: _ => [Generator.file g]
        end)
  /\ (Generator.block_size g = 0%Z -> Generator.blocks g = []).
Proof.
  unfold Generator.blocks. split; [|split].
  - intro H. now apply blocks_loop_positive.
  - intro H. destruct (Generator.file g) as [|c r]; cbn [List.length].
    + cbn. unfold Generator.StringIO_read.
      now replace (Generator.block_size g <? 0)%Z with true
        by (symmetry; apply Z.ltb_lt; lia).
    + cbn [Generator.blocks_loop]. unfold Generator.StringIO_read.
      replace (Generator.block_size g <? 0)%Z with true
        by (symmetry; apply Z.ltb_lt; lia).
      now rewrite blocks_loop_nil.
  - intros ->. destruct (Generator.file g) as [|c r]; reflexivity.
Qed.

(** X11. [DataGenerator.blocks]: with a positive [block_size] the blocks
    are not empty, none is longer than [block_size], and joined together
    they are the text of [file]; with a negative [block_size] the whole
    text comes as one block; with [block_size] 0 no block is produced,
    whatever the text holds. *)
Theorem X11_generator_blocks (g : Generator.DataGenerator) :
  ((0 < Generator.block_size g)%Z ->
   List.concat (Generator.blocks g) = Generator.file g
   /\ Forall (fun b => b <> []
                       /\ (Z.of_nat (List.length b)
                           <= Generator.block_size g)%Z)
        (Generator.blocks g))
  /\ ((Generator.block_size g < 0)%Z ->
      Generator.blocks g
      = match Generator.file g with
        | [] => []
        | _ :: _ => [Generator.file g]
        end)
  /\ (Generator.block_size g = 0%Z -> Generator.blocks g = []).
Proof. exact (generator_blocks_shape g). Qed.

(** X11, the generator of [test_copy_rowcount]: three records of ten
    letters, read in blocks of 8192. *)
Lemma X11_witness :
  List.concat (Generator.blocks
                 (Generator.DataGenerator_init 3 10 None None))
  = Generator.file (Generator.DataGenerator_init 3 10 None None).
Proof.
  exact (proj1 (proj1 (X11_generator_blocks
                         (Generator.DataGenerator_init 3 10 None None))
                  eq_refl)).
Defined.

Lemma uint_printable (d : Decimal.uint) :
  Forall (fun p => 32 <= p < 127)
    (Py.of_string (NilEmpty.string_of_uint d)).
Proof.
  induction d; cbn; constructor; try lia; assumption.
Qed.

Lemma str_of_int_printable (i : Z) :
  Forall (fun p => 32 <= p < 127) (Generator.str_of_int i).
Proof.
  unfold Generator.str_of_int, NilZero.string_of_int.
  destruct (Z.to_int i) as [d|d].
  - unfold NilZero.string_of_uint.
    destruct d; try apply uint_printable. cbn. constructor; [lia|constructor].
  - change (Py.of_string (String "-" (NilZero.string_of_uint d)))
      with (45 :: Py.of_string (NilZero.string_of_uint d)).
    constructor; [lia|]. unfold NilZero.string_of_uint.
    destruct d; try apply uint_printable. cbn. constructor; [lia|constructor].
Qed.

Lemma ascii_letters_printable :
  Forall (fun p => 32 <= p < 127) Generator.ascii_letters.
Proof.
  unfold Generator.ascii_letters. cbn.
  repeat (constructor; [lia|]). constructor.
Qed.

Lemma printable_count (l : Py.str) (x : N) :
  Forall (fun p => 32 <= p < 127) l -> x < 32 ->
  count_occ N.eq_dec l x = 0%nat.
Proof.
  intros Hl Hx. apply count_occ_not_In. intro Hin.
  rewrite Forall_forall in Hl. specialize (Hl x Hin). lia.
Qed.

Lemma records_printable (g : Generator.DataGenerator) :
  Forall (fun r => Forall (fun p => 32 <= p < 127) (snd r))
    (Generator.records g).
Proof.
  destruct (generator_records_shape g) as [_ [_ [_ H]]].
  rewrite Forall_forall in *. intros r Hr.
  destruct (H r Hr) as [letter [Hl ->]].
  apply Forall_forall. intros p Hp. apply repeat_spec in Hp. subst p.
  pose proof ascii_letters_printable as Ha. rewrite Forall_forall in Ha.
  now apply Ha.
Qed.

Lemma lines_shape (recs : list (Z * Py.str)) :
  Forall (fun r => Forall (fun p => 32 <= p < 127) (snd r)) recs ->
  Forall (fun p => p < 128) (flat_map Generator.line recs)
  /\ count_occ N.eq_dec (flat_map Generator.line recs) 10 = List.length recs
  /\ count_occ N.eq_dec (flat_map Generator.line recs) 9 = List.length recs.
Proof.
  induction 1 as [|r recs Hr _ IH]; [now repeat split|].
  destruct IH as [Ha [Hn Ht]]. cbn [flat_map List.length].
  set (rest := flat_map Generator.line recs) in *.
  pose proof (str_of_int_printable (fst r)) as Hi.
  unfold Generator.line. unfold Py.str in *. split; [|split].
  - repeat (apply Forall_app; split); try assumption;
      try (constructor; [lia | constructor]);
      (eapply Forall_impl; [|eassumption]); cbn; intros; lia.
  - rewrite !count_occ_app, Hn.
    rewrite (printable_count _ 10 Hi), (printable_count _ 10 Hr) by lia.
    reflexivity.
  - rewrite !count_occ_app, Ht.
    rewrite (printable_count _ 9 Hi), (printable_count _ 9 Hr) by lia.
    reflexivity.
Qed.

Lemma utf8_encode_octets (s : Py.str) :
  Forall (fun p => p < 128) s -> Py.encode "utf8" s = Py.Ok (map Py.octet s).
Proof.
  intro H. change (Py.encode "utf8" s) with (Py.utf8_encode s).
  rewrite utf8_encode_ascii.
  - induction H as [|p s Hp _ IH]; [reflexivity|].
    cbn [Py.single_encode map].
    replace (p <? 128) with true by (symmetry; now apply N.ltb_lt).
    now rewrite IH.
  - apply forallb_forall. rewrite Forall_forall in H.
    intros p Hp. apply N.ltb_lt. now apply H.
Qed.

(** X12. The text of [DataGenerator.file] is plain ASCII and holds one
    line break and one tab per record, so every record is one line of two
    fields; [encode("utf8")] of the text, and of each block that [blocks]
    yields, succeeds and gives one octet per character. *)
Theorem X12_generator_file_is_ascii_lines (g : Generator.DataGenerator) :
  Forall (fun p => p < 128) (Generator.file g)
  /\ count_occ N.eq_dec (Generator.file g) 10 = Z.to_nat (Generator.nrecs g)
  /\ count_occ N.eq_dec (Generator.file g) 9 = Z.to_nat (Generator.nrecs g)
  /\ Py.encode "utf8" (Generator.file g)
     = Py.Ok (map Py.octet (Generator.file g))
  /\ Forall (fun b => Py.encode "utf8" b = Py.Ok (map Py.octet b))
       (Generator.blocks g).
Proof.
  destruct (lines_shape _ (records_printable g)) as [Ha [Hn Ht]].
  destruct (generator_records_shape g) as [Hlen _]. rewrite Hlen in Hn, Ht.
  split; [exact Ha|]. split; [exact Hn|]. split; [exact Ht|].
  split; [now apply utf8_encode_octets|].
  assert (Hb : Forall (Forall (fun p => p < 128)) (Generator.blocks g)).
  { destruct (generator_blocks_shape g) as [Hpos [Hneg Hzero]].
    destruct (Z.lt_trichotomy (Generator.block_size g) 0) as [H|[H|H]].
    - rewrite (Hneg H). clear - Ha.
      change (Forall (fun p => p < 128) (Generator.file g)) in Ha.
      revert Ha. destruct (Generator.file g); intro Ha; [constructor|].
      constructor; [exact Ha | constructor].
    - rewrite (Hzero H). constructor.
    - destruct (Hpos H) as [Hc _]. apply Forall_concat. now rewrite Hc. }
  eapply Forall_impl; [|exact Hb]. intros b. apply utf8_encode_octets.
Qed.
